(** * ShotMan: the versioned shot-file manager

    A shallow embedding of [core.py] (listing, creating, duplicating and
    deleting shot files), of the command-line script [cli.py] and of the
    filtering and custom-metadata methods of [shotman.py], with the
    properties of the specification stated over it; then of the rest of
    [core.py] and of the sorting, the actions on the selected shot, the
    creation dialog and the configuration of [shotman.py], with
    properties read off the code.

    Conventions of the embedding.
    - A Python [str] is a [string]: its characters are the code points
      below 256, on which the class [\d] of the [re] module is exactly
      the ten ASCII digits.
    - A Python [int] is an [N].
    - The contents of a file are a [list byte].
    - A directory is an association list from entry names to nodes, in
      the order in which [os.listdir] enumerates it; the file system
      maps the path of a directory to that list.  Entry names are taken
      literally (no path separators inside a name are interpreted).
    - A function that may raise returns a [result]; a function that
      touches the file system takes the file system and returns the new
      one beside its result.
    - The messages of exceptions, the log and the widgets are left
      out; failures of the operating system other than a missing or
      misplaced entry (permissions, a full disk) do not occur. *)

From Stdlib Require Import Ascii String List NArith Lia Permutation Sorted.
From Stdlib.Strings Require Import Byte.
From Stdlib Require QArith.
From stdpp Require Import base option list gmap strings pretty sorting.

Local Open Scope N_scope.

(** * Python strings *)

Module Str.

(** The line feed, the one character [.] of a pattern does not
    match. *)
Definition LF : ascii := "010"%char.

(** [s.startswith(p)]. *)
Definition startswith (s p : string) : bool := String.prefix p s.

(** [s.endswith(p)]: some tail of [s] is [p]. *)
Fixpoint endswith (s p : string) : bool :=
  if String.eqb s p then true
  else match s with
       | EmptyString => false
       | String _ s' => endswith s' p
       end.

(** [t in s] on strings: [t] is a prefix of some tail of [s]. *)
Fixpoint contains (s t : string) : bool :=
  if String.prefix t s then true
  else match s with
       | EmptyString => false
       | String _ s' => contains s' t
       end.

(** [c.lower()] on a code point below 256: the letters A-Z and the
    Latin-1 capitals (192-222 but the multiplication sign 215) move
    up by 32. *)
Definition lower_char (c : ascii) : ascii :=
  let n := N_of_ascii c in
  if ((65 <=? n) && (n <=? 90)) || ((192 <=? n) && (n <=? 222) && negb (n =? 215))
  then ascii_of_N (n + 32) else c.

(** [s.lower()]. *)
Fixpoint lower (s : string) : string :=
  match s with
  | EmptyString => EmptyString
  | String c s' => String (lower_char c) (lower s')
  end.

(** The class [\d]. *)
Definition is_digit (c : ascii) : bool := bool_decide (is_Some (Ascii.is_nat c)).

(** [int(s)] on a string of decimal digits, most significant first;
    [None] stands for the [ValueError] on any other character. *)
Fixpoint int_from (acc : N) (s : string) : option N :=
  match s with
  | EmptyString => Some acc
  | String c s' =>
      match Ascii.is_nat c with
      | Some d => int_from (acc * 10 + N.of_nat d) s'
      | None => None
      end
  end.

Definition int (s : string) : option N :=
  match s with
  | EmptyString => None
  | _ => int_from 0 s
  end.

(** [f"{n:02d}"]: decimal, padded with zeros on the left up to a
    width of two, and wider when the number needs it. *)
Definition format_02d (n : N) : string :=
  if n <? 10 then "0" +:+ pretty n else pretty n.

(** All characters of [s] lie on one line. *)
Fixpoint single_line (s : string) : bool :=
  match s with
  | EmptyString => true
  | String c s' => negb (Ascii.eqb c LF) && single_line s'
  end.

End Str.

(** * The versioning pattern *)

Module Pattern.
Import Str.

(** The versioning pattern of [duplicate_shot] reads: start of the
    string, a first group of any characters (dot, star), the text
    [_v], a second group of two digits ([\d{2}]), the text [.blend],
    end of the string ([$]).

    [match_suffix] is what follows the first group: [_v], two digits,
    [.blend] and the end of the string, which [$] also sees just
    before one final line feed.  The result is the second group. *)
Definition match_suffix (s : string) : option string :=
  match s with
  | String "_" (String "v" (String d1 (String d2 rest))) =>
      if is_digit d1 && is_digit d2 &&
         (String.eqb rest ".blend" || String.eqb rest (".blend" +:+ String LF ""))
      then Some (String d1 (String d2 ""))
      else None
  | _ => None
  end.

(** [re.match] with the versioning pattern on [s]: the two groups of
    the match, or [None].  The first group is greedy and its dot
    stops at a line feed: the matcher first lets the group take one
    more character and falls back to ending the group here. *)
Fixpoint re_match (s : string) : option (string * string) :=
  match s with
  | EmptyString => None
  | String c s' =>
      if Ascii.eqb c LF then pair "" <$> match_suffix s
      else match re_match s' with
           | Some (g1, g2) => Some (String c g1, g2)
           | None => pair "" <$> match_suffix s
           end
  end.

(** A version field of two characters. *)
Definition two (d1 d2 : ascii) : string := String d1 (String d2 "").

(** The f-string [f"{base_name}_v{version:02d}.blend"]. *)
Definition format_name (base_name : string) (version : N) : string :=
  base_name +:+ "_v" +:+ format_02d version +:+ ".blend".

End Pattern.

(** * Exceptions and results *)

(** The exception classes the code raises or lets escape; their
    messages are not modelled. *)
Inductive exn : Set :=
  | ValueError
  | FileNotFoundError
  | FileExistsError
  | IOError
  | TypeError
  | Exception.

(** The outcome of a call: the returned value or the exception
    raised. *)
Inductive result (A : Type) : Type :=
  | Return (a : A)
  | Raise (e : exn).
Arguments Return {A} a.
Arguments Raise {A} e.

(** * The file system *)

Inductive node : Type :=
  | File (data : list byte)
  | Directory.

(** The entries of a directory, in the order of [os.listdir]. *)
Definition directory : Type := list (string * node).

(** The file system: the directories by path. *)
Abbreviation filesystem := (gmap string directory).

Module Fs.

(** The node of the entry called [name], if there is one. *)
Fixpoint entry (name : string) (d : directory) : option node :=
  match d with
  | [] => None
  | (n, x) :: d' => if String.eqb n name then Some x else entry name d'
  end.

(** The directory without the entry called [name]. *)
Fixpoint remove_entry (name : string) (d : directory) : directory :=
  match d with
  | [] => []
  | (n, x) :: d' =>
      if String.eqb n name then remove_entry name d' else (n, x) :: remove_entry name d'
  end.

(** The directory with [name] bound to [x]: an existing entry keeps
    its place, a new one is put at the end. *)
Fixpoint set_entry (name : string) (x : node) (d : directory) : directory :=
  match d with
  | [] => [(name, x)]
  | (n, y) :: d' =>
      if String.eqb n name then (n, x) :: d' else (n, y) :: set_entry name x d'
  end.

(** [os.path.exists(os.path.join(shot_directory, name))]. *)
Definition exists_in (shot_directory name : string) (fs : filesystem) : bool :=
  match fs !! shot_directory with
  | Some d => bool_decide (is_Some (entry name d))
  | None => false
  end.


(** [os.listdir(shot_directory)] on an existing directory. *)
Definition listdir (d : directory) : list string := d.*1.

(** [os.makedirs(shot_directory, exist_ok=True)]. *)
Definition makedirs (shot_directory : string) (fs : filesystem) : filesystem :=
  match fs !! shot_directory with
  | Some _ => fs
  | None => <[shot_directory := []]> fs
  end.

(** Opening [name] in [shot_directory] for writing and writing
    [data]: [None] when the directory is missing or the name is
    that of a directory. *)
Definition write_file (shot_directory name : string) (data : list byte)
    (fs : filesystem) : option filesystem :=
  match fs !! shot_directory with
  | None => None
  | Some d =>
      match entry name d with
      | Some Directory => None
      | _ => Some (<[shot_directory := set_entry name (File data) d]> fs)
      end
  end.

(** Reading the file [name] of [shot_directory]. *)
Definition read_file (shot_directory name : string) (fs : filesystem) : option (list byte) :=
  match fs !! shot_directory with
  | Some d => match entry name d with Some (File data) => Some data | _ => None end
  | None => None
  end.

(** [shutil.copy2(src, dst)] inside [shot_directory]: [None] when it
    raises (the source is not a readable file, or the target cannot
    be written). *)
Definition copy2 (shot_directory src dst : string) (fs : filesystem) : option filesystem :=
  match read_file shot_directory src fs with
  | Some data => write_file shot_directory dst data fs
  | None => None
  end.

(** [os.remove(os.path.join(shot_directory, name))]: [None] when it
    raises (no such file, or a directory). *)
Definition remove (shot_directory name : string) (fs : filesystem) : option filesystem :=
  match fs !! shot_directory with
  | Some d =>
      match entry name d with
      | Some (File _) => Some (<[shot_directory := remove_entry name d]> fs)
      | _ => None
      end
  | None => None
  end.

End Fs.

(** * core.py *)

Module Core.
Import Str Pattern Fs.

(** The text [create_new_shot] writes into a new shot file. *)
Definition placeholder : list byte :=
  String.list_byte_of_string "BLENDER_FILE_PLACEHOLDER".

(** The test of the comprehension of [list_shots]. *)
Definition is_shot_file (f : string) : bool :=
  endswith f ".blend" && negb (startswith f "cam_template_").

(** [sorted] on a list of strings: the stable sort by code points.
    The order is total and antisymmetric, so the sorted list does not
    depend on the sorting algorithm. *)
Definition sorted (l : list string) : list string := merge_sort String.le l.

Definition list_shots (shot_directory : string) (fs : filesystem) : list string :=
  match fs !! shot_directory with
  | None => []
  | Some d => sorted (List.filter is_shot_file (listdir d))
  end.

Definition create_new_shot (base_name shot_directory : string) (fs : filesystem)
    : result string * filesystem :=
  let fs := makedirs shot_directory fs in
  let filename := base_name +:+ "_v01.blend" in
  if exists_in shot_directory filename fs then (Raise FileExistsError, fs)
  else
    match write_file shot_directory filename placeholder fs with
    | Some fs' => (Return filename, fs')
    | None => (Raise IOError, fs)
    end.

Definition duplicate_shot (original_filename shot_directory : string) (fs : filesystem)
    : result string * filesystem :=
  match re_match original_filename with
  | None => (Raise ValueError, fs)
  | Some (base_name, group2) =>
      match int group2 with
      | None => (Raise ValueError, fs)
      | Some current_version =>
          let next_version := current_version + 1 in
          let new_filename := format_name base_name next_version in
          if negb (exists_in shot_directory original_filename fs)
          then (Raise FileNotFoundError, fs)
          else if exists_in shot_directory new_filename fs
          then (Raise FileExistsError, fs)
          else
            match copy2 shot_directory original_filename new_filename fs with
            | Some fs' => (Return new_filename, fs')
            | None => (Raise Exception, fs)
            end
      end
  end.

Definition delete_shot (filename shot_directory : string) (fs : filesystem)
    : result unit * filesystem :=
  if negb (exists_in shot_directory filename fs) then (Raise FileNotFoundError, fs)
  else
    match remove shot_directory filename fs with
    | Some fs' => (Return tt, fs')
    | None => (Raise Exception, fs)
    end.

(** The filename codec, as [duplicate_shot] has it: the base name is
    the first group of the match and the version the number the
    second group spells. *)
Definition parse (filename : string) : option (string * N) :=
  match re_match filename with
  | Some (base_name, group2) =>
      match int group2 with
      | Some version => Some (base_name, version)
      | None => None
      end
  | None => None
  end.

End Core.

(** * cli.py *)

Module Cli.
Import Fs Core.

(** The functions of [core.py] as Python calls them, on the list of
    the positional arguments: none of their parameters has a default
    ([list_shots] has one, the others two, the shot directory last),
    and a call with another number of arguments raises [TypeError]
    before the body runs. *)
Definition call_create_new_shot (arguments : list string) (fs : filesystem)
    : result string * filesystem :=
  match arguments with
  | [base_name; shot_directory] => create_new_shot base_name shot_directory fs
  | _ => (Raise TypeError, fs)
  end.

Definition call_list_shots (arguments : list string) (fs : filesystem)
    : result (list string) * filesystem :=
  match arguments with
  | [shot_directory] => (Return (list_shots shot_directory fs), fs)
  | _ => (Raise TypeError, fs)
  end.

Definition call_duplicate_shot (arguments : list string) (fs : filesystem)
    : result string * filesystem :=
  match arguments with
  | [original_filename; shot_directory] => duplicate_shot original_filename shot_directory fs
  | _ => (Raise TypeError, fs)
  end.

Definition call_delete_shot (arguments : list string) (fs : filesystem)
    : result unit * filesystem :=
  match arguments with
  | [filename; shot_directory] => delete_shot filename shot_directory fs
  | _ => (Raise TypeError, fs)
  end.

(** The namespace [parser.parse_args()] returns: the three options
    with a value are [None] when absent, [--list] is a flag. *)
Record args : Type := {
  args_create : option string;
  args_list : bool;
  args_duplicate : option string;
  args_delete : option string
}.

(** The truth value of an option of the namespace: [None] and the
    empty string are false. *)
Definition truthy (o : option string) : bool :=
  match o with
  | Some s => negb (String.eqb s "")
  | None => false
  end.

(** What a run of the script leaves: the lines printed on standard
    output, the exit status and the file system.  An exception that
    escapes ends the run with status 1 and its traceback on standard
    error. *)
Record run : Type := {
  stdout : list string;
  exit_status : nat;
  files : filesystem
}.

(** The script is a sequence of statements over the file system; a
    statement that raises ends it. *)
Definition script : Type := filesystem -> result unit * filesystem.

Definition seq (s1 s2 : script) : script :=
  fun fs =>
    match s1 fs with
    | (Return _, fs') => s2 fs'
    | (Raise e, fs') => (Raise e, fs')
    end.

Definition when (b : bool) (s : script) : script :=
  fun fs => if b then s fs else (Return tt, fs).

(** An expression statement: the value of the call is dropped. *)
Definition expr {A : Type} (call : filesystem -> result A * filesystem) : script :=
  fun fs =>
    match call fs with
    | (Return _, fs') => (Return tt, fs')
    | (Raise e, fs') => (Raise e, fs')
    end.

(** The four [if] statements of the script; the value of an option is
    the only argument of each call. *)
Definition statements (a : args) : script :=
  seq (when (truthy (args_create a))
         (expr (call_create_new_shot (option_list (args_create a)))))
 (seq (when (args_list a)
         (expr (call_list_shots [])))
 (seq (when (truthy (args_duplicate a))
         (expr (call_duplicate_shot (option_list (args_duplicate a)))))
      (when (truthy (args_delete a))
         (expr (call_delete_shot (option_list (args_delete a))))))).

(** The script has no [print]: nothing reaches standard output. *)
Definition main (a : args) (fs : filesystem) : run :=
  match statements a fs with
  | (Return _, fs') => {| stdout := []; exit_status := 0; files := fs' |}
  | (Raise _, fs') => {| stdout := []; exit_status := 1; files := fs' |}
  end.

End Cli.

(** * shotman.py: filtering and custom metadata *)

(** A metadata record: a [dict] from field names to strings. *)
Abbreviation record := (gmap string string).

Module Gui.
Import Str Fs.

Definition CUSTOM_METADATA_SUBDIR : string := "_custom_meta".

(** The list [filtered_shots] that the loop of [_filter_shots] builds
    from [self.all_shots] and the text of the search entry; the method
    then hands it to [_sort_files] and to the list box. *)
Definition filtered_shots (search_entry : string) (all_shots : list string) : list string :=
  let search_term := lower search_entry in
  List.filter (fun shot_name => contains (lower shot_name) search_term) all_shots.

(** [os.path.join(a, b)] for a relative [b]. *)
Definition join (a b : string) : string :=
  if String.eqb a "" then b
  else if endswith a "/" then a +:+ b
  else a +:+ "/" +:+ b.

(** The string cut at its last dot: what is before, and the rest from
    the dot on. *)
Fixpoint last_dot (s : string) : option (string * string) :=
  match s with
  | EmptyString => None
  | String c s' =>
      match last_dot s' with
      | Some (root, ext) => Some (String c root, ext)
      | None => if Ascii.eqb c "." then Some ("", s) else None
      end
  end.

Fixpoint all_dots (s : string) : bool :=
  match s with
  | EmptyString => true
  | String c s' => Ascii.eqb c "." && all_dots s'
  end.

(** [os.path.splitext(filename)[0]] for a name without separator: the
    name up to its last dot, unless only dots come before it. *)
Definition splitext_root (filename : string) : string :=
  match last_dot filename with
  | Some (root, _) => if all_dots root then filename else root
  | None => filename
  end.

(** The directory and the entry name of the metadata file, where
    [config["shot_directory"]] is [shot_directory]. *)
Definition _get_custom_metadata_path (shot_directory filename : string) : string * string :=
  (join shot_directory CUSTOM_METADATA_SUBDIR, splitext_root filename +:+ ".json").

Definition corrupted_record : record := {[ "error" := "Corrupted custom metadata file." ]}.
Definition unreadable_record : record := {[ "error" := "Error loading custom metadata." ]}.

(** What the edit window starts from. *)
Inductive edit : Type :=
  | NoSelection
  | MetadataError (message : string)
  | EditWindow (status assigned_artist due_date notes : string).

Section Json.

(** [json.dump(data, f, indent=4)] as the bytes written, and
    [json.load(f)] on the bytes read, [None] standing for
    [JSONDecodeError]. *)
Variable json_dump : record -> list byte.
Variable json_load : list byte -> option record.

Definition _load_custom_metadata (shot_directory filename : string) (fs : filesystem) : record :=
  let '(meta_dir, meta_name) := _get_custom_metadata_path shot_directory filename in
  if exists_in meta_dir meta_name fs then
    match read_file meta_dir meta_name fs with
    | Some text =>
        match json_load text with
        | Some data => data
        | None => corrupted_record
        end
    | None => unreadable_record
    end
  else ∅.

Definition _save_custom_metadata (shot_directory filename : string) (data : record)
    (fs : filesystem) : bool * filesystem :=
  let '(meta_dir, meta_name) := _get_custom_metadata_path shot_directory filename in
  match write_file meta_dir meta_name (json_dump data) fs with
  | Some fs' => (true, fs')
  | None => (false, fs)
  end.

(** [edit_custom_metadata_for_selected] up to the opening of the
    window: [selected] is the selection of the list box. *)
Definition edit_custom_metadata_for_selected (shot_directory : string)
    (selected : option string) (fs : filesystem) : edit :=
  match selected with
  | None => NoSelection
  | Some EmptyString => NoSelection
  | Some selected =>
      let current_meta := _load_custom_metadata shot_directory selected fs in
      match current_meta !! "error" with
      | Some message => MetadataError message
      | None =>
          EditWindow (default "WIP" (current_meta !! "status"))
                     (default "" (current_meta !! "assigned_artist"))
                     (default "" (current_meta !! "due_date"))
                     (default "" (current_meta !! "notes"))
      end
  end.

End Json.

End Gui.

(** * A reference JSON codec for records *)

(** JSON text for objects whose values are strings, laid out as
    [json.dump] with [indent=4] lays it out.  It stands for the [json]
    module where a concrete codec is needed; in strings it escapes the
    quote, the backslash and the line feed. *)
Module JsonText.
Import Str.

Definition QUOTE : ascii := "034"%char.
Definition BACKSLASH : ascii := "092"%char.

Definition escape_char (c : ascii) : string :=
  if Ascii.eqb c QUOTE then String BACKSLASH (String QUOTE "")
  else if Ascii.eqb c BACKSLASH then String BACKSLASH (String BACKSLASH "")
  else if Ascii.eqb c LF then String BACKSLASH "n"
  else String c "".

Fixpoint escape (s : string) : string :=
  match s with
  | EmptyString => EmptyString
  | String c s' => escape_char c +:+ escape s'
  end.

Definition unescape_char (e : ascii) : option ascii :=
  if Ascii.eqb e QUOTE then Some QUOTE
  else if Ascii.eqb e BACKSLASH then Some BACKSLASH
  else if Ascii.eqb e "n" then Some LF
  else None.

(** The string literal [t] followed by [rest]. *)
Definition put_string (t rest : string) : string :=
  String QUOTE (escape t +:+ String QUOTE rest).

(** The members of an object and its closing brace, one member a
    line. *)
Fixpoint members (l : list (string * string)) : string :=
  match l with
  | [] => String LF "}"
  | (k, v) :: l' =>
      "    " +:+ put_string k (": " +:+ put_string v
        match l' with
        | [] => members l'
        | _ :: _ => String "," (String LF (members l'))
        end)
  end.

Definition dumps (l : list (string * string)) : string :=
  match l with
  | [] => "{}"
  | _ :: _ => String "{" (String LF (members l))
  end.

Definition is_ws (c : ascii) : bool := Ascii.eqb c " " || Ascii.eqb c LF.

(** The string from its first character that is not white space. *)
Fixpoint skip (s : string) : string :=
  match s with
  | EmptyString => EmptyString
  | String c s' => if is_ws c then skip s' else s
  end.

(** After white space, the character [c]: what follows it. *)
Definition expect (c : ascii) (s : string) : option string :=
  match skip s with
  | String c' s' => if Ascii.eqb c' c then Some s' else None
  | EmptyString => None
  end.

(** The body of a string literal after its opening quote: the string
    it denotes and what follows the closing quote. *)
Fixpoint unquote (s : string) : option (string * string) :=
  match s with
  | EmptyString => None
  | String c s' =>
      if Ascii.eqb c QUOTE then Some (EmptyString, s')
      else if Ascii.eqb c BACKSLASH then
        match s' with
        | String e s'' =>
            match unescape_char e, unquote s'' with
            | Some x, Some (t, rest) => Some (String x t, rest)
            | _, _ => None
            end
        | EmptyString => None
        end
      else
        match unquote s' with
        | Some (t, rest) => Some (String c t, rest)
        | None => None
        end
  end.

(** The members of an object up to its closing brace; [fuel] bounds
    their number. *)
Fixpoint parse_members (fuel : nat) (s : string) : option (list (string * string)) :=
  match fuel with
  | O => None
  | S fuel =>
      s1 ← expect QUOTE s;
      '(k, s2) ← unquote s1;
      s3 ← expect ":" s2;
      s4 ← expect QUOTE s3;
      '(v, s5) ← unquote s4;
      match skip s5 with
      | String d s6 =>
          if Ascii.eqb d "," then cons (k, v) <$> parse_members fuel s6
          else if Ascii.eqb d "}" then
            match skip s6 with
            | EmptyString => Some [(k, v)]
            | String _ _ => None
            end
          else None
      | EmptyString => None
      end
  end.

Definition loads (s : string) : option (list (string * string)) :=
  s1 ← expect "{" s;
  match expect "}" s1 with
  | Some s2 =>
      match skip s2 with
      | EmptyString => Some []
      | String _ _ => None
      end
  | None => parse_members (String.length s1) s1
  end.

(** The codec on records and bytes.  A key that occurs twice in the
    text keeps its last value. *)
Definition json_dump (data : record) : list byte :=
  String.list_byte_of_string (dumps (map_to_list data)).

Definition json_load (text : list byte) : option record :=
  (fun l => list_to_map (reverse l)) <$> loads (String.string_of_list_byte text).

End JsonText.

(** * core.py: creation from a template *)

Module CoreTemplate.
Import Str Fs.

(** [shutil.copy2(src, dst)] between two directories: the path of a
    file is given as the path of its directory and its entry name.
    [None] when it raises. *)
Definition copy2_from (src_directory src dst_directory dst : string) (fs : filesystem)
    : option filesystem :=
  match read_file src_directory src fs with
  | Some data => write_file dst_directory dst data fs
  | None => None
  end.

(** [template_path] is the directory of the template and its name in
    it; [template_label] is not used by the body. *)
Definition create_new_shot_from_template (base_name template_label : string)
    (template_path : string * string) (shot_directory : string) (fs : filesystem)
    : result string * filesystem :=
  let fs := makedirs shot_directory fs in
  if negb (exists_in template_path.1 template_path.2 fs)
  then (Raise FileNotFoundError, fs)
  else
    let new_shot_filename := base_name +:+ "_v01.blend" in
    if exists_in shot_directory new_shot_filename fs then (Raise FileExistsError, fs)
    else
      match copy2_from template_path.1 template_path.2 shot_directory new_shot_filename fs with
      | Some fs' => (Return new_shot_filename, fs')
      | None => (Raise Exception, fs)
      end.

End CoreTemplate.

(** * shotman.py: sorting, actions and configuration *)

Module StrMore.
Import Str.

(** [c.isspace()] on a code point below 256. *)
Definition is_space (c : ascii) : bool :=
  let n := N_of_ascii c in
  ((9 <=? n) && (n <=? 13)) || ((28 <=? n) && (n <=? 32)) || (n =? 133) || (n =? 160).

Fixpoint lstrip (s : string) : string :=
  match s with
  | EmptyString => EmptyString
  | String c s' => if is_space c then lstrip s' else s
  end.

Fixpoint rstrip (s : string) : string :=
  match s with
  | EmptyString => EmptyString
  | String c s' =>
      match rstrip s' with
      | EmptyString => if is_space c then EmptyString else String c EmptyString
      | r => String c r
      end
  end.

(** [s.strip()]. *)
Definition strip (s : string) : string := rstrip (lstrip s).

(** The class [[a-zA-Z0-9_]]. *)
Definition is_word_char (c : ascii) : bool :=
  let n := N_of_ascii c in
  ((97 <=? n) && (n <=? 122)) || ((65 <=? n) && (n <=? 90)) ||
  ((48 <=? n) && (n <=? 57)) || (n =? 95).

(** The end of the string as [$] sees it: the end, or one final line
    feed. *)
Definition at_end (s : string) : bool :=
  String.eqb s "" || String.eqb s (String LF "").

(** [re.match] with the pattern of [on_create], start of the string,
    one or more characters of the class above, [$]: whether there is
    a match. *)
Fixpoint re_match_name (s : string) : bool :=
  match s with
  | EmptyString => false
  | String c s' => is_word_char c && (re_match_name s' || at_end s')
  end.

(** [s] without the prefix [p], when it starts with [p]. *)
Fixpoint strip_prefix (p s : string) : option string :=
  match p with
  | EmptyString => Some s
  | String a p' =>
      match s with
      | String b s' => if Ascii.eqb a b then strip_prefix p' s' else None
      | EmptyString => None
      end
  end.

(** The longest run of digits at the start of [s], and what follows:
    how a greedy [\d+] splits [s] when a character that is no digit
    has to follow. *)
Fixpoint span_digits (s : string) : string * string :=
  match s with
  | EmptyString => (EmptyString, EmptyString)
  | String c s' =>
      if is_digit c then let '(ds, r) := span_digits s' in (String c ds, r)
      else (EmptyString, s)
  end.

End StrMore.

Module SortFiles.
Import Str StrMore.

(** The pattern of [alphabetical_key], the text [_v], one or more
    digits, [.blend] and [$], matched at the start of [s]: what
    follows the match (nothing, or the final line feed). *)
Definition version_suffix (s : string) : option string :=
  r1 ← strip_prefix "_v" s;
  let '(ds, r2) := span_digits r1 in
  if String.eqb ds "" then None
  else r3 ← strip_prefix ".blend" r2;
       if at_end r3 then Some r3 else None.

(** [re.sub] of that pattern by the empty string: the leftmost match
    is cut out; what follows it holds no other match. *)
Fixpoint alphabetical_key (filename : string) : string :=
  match version_suffix filename with
  | Some rest => rest
  | None =>
      match filename with
      | EmptyString => EmptyString
      | String c s' => String c (alphabetical_key s')
      end
  end.

(** The pattern of [shot_number_key], the text [SHOT_], a group of
    one or more digits and then the pattern above, matched at the
    start of [s]: the group. *)
Definition shot_number_at (s : string) : option string :=
  r1 ← strip_prefix "SHOT_" s;
  let '(g, r2) := span_digits r1 in
  if String.eqb g "" then None
  else match version_suffix r2 with
       | Some _ => Some g
       | None => None
       end.

(** [re.search] with that pattern: the group of the leftmost match. *)
Fixpoint re_search_shot_number (s : string) : option string :=
  match shot_number_at s with
  | Some g => Some g
  | None =>
      match s with
      | EmptyString => None
      | String _ s' => re_search_shot_number s'
      end
  end.

Definition shot_number_key (filename : string) : N :=
  match re_search_shot_number filename with
  | Some g => default 0 (int g)
  | None => 0
  end.

(** [l.sort(key=key)] and, with [ge] for [le], [l.sort(key=key,
    reverse=True)]: the stable sort.  Each element is put in front of
    the first element whose key is not before its own, so elements of
    equal keys keep their order. *)
Fixpoint insert_by {A K : Type} (le : K -> K -> bool) (key : A -> K) (x : A) (l : list A)
    : list A :=
  match l with
  | [] => [x]
  | y :: l' => if le (key x) (key y) then x :: l else y :: insert_by le key x l'
  end.

Definition sort_by {A K : Type} (le : K -> K -> bool) (key : A -> K) (l : list A) : list A :=
  foldr (insert_by le key) [] l.

Section Stat.

(** [os.path.getctime] and [os.path.getsize] on the files of the shot
    directory, by file name: a time stamp is a finite float, that is a
    rational number; a size is a number of bytes. *)
Variable getctime : string -> QArith_base.Q.
Variable getsize : string -> N.

Definition _sort_files (files : list string) (sort_type : string) : list string :=
  if String.eqb sort_type "Alphabetical (A-Z)" then
    sort_by String.leb alphabetical_key files
  else if String.eqb sort_type "Date Created (Newest)" then
    sort_by (fun a b => QArith_base.Qle_bool b a) getctime files
  else if String.eqb sort_type "Date Created (Oldest)" then
    sort_by QArith_base.Qle_bool getctime files
  else if String.eqb sort_type "File Size (Largest)" then
    sort_by (fun a b => N.leb b a) getsize files
  else if String.eqb sort_type "File Size (Smallest)" then
    sort_by N.leb getsize files
  else if String.eqb sort_type "Shot Number" then
    sort_by N.leb shot_number_key files
  else files.



End Stat.

End SortFiles.

Module GuiActions.
Import Str StrMore Pattern Fs Core CoreTemplate Gui.

Definition _delete_custom_metadata (shot_directory filename : string) (fs : filesystem)
    : bool * filesystem :=
  let '(meta_dir, meta_name) := _get_custom_metadata_path shot_directory filename in
  if exists_in meta_dir meta_name fs then
    match remove meta_dir meta_name fs with
    | Some fs' => (true, fs')
    | None => (false, fs)
    end
  else (false, fs).

(** A message box, by kind and title. *)
Inductive messagebox : Type :=
  | showinfo (title : string)
  | showwarning (title : string)
  | showerror (title : string).

(** [duplicate_selected]: the message box shown, if any, and the file
    system left. *)
Definition duplicate_selected (shot_directory : string) (selected : option string)
    (fs : filesystem) : option messagebox * filesystem :=
  match selected with
  | None | Some EmptyString => (Some (showinfo "No Selection"), fs)
  | Some selected_filename =>
      match re_match selected_filename with
      | None => (Some (showwarning "Invalid Shot Name"), fs)
      | Some _ =>
          match duplicate_shot selected_filename shot_directory fs with
          | (Return _, fs') => (None, fs')
          | (Raise ValueError, fs') => (Some (showwarning "Duplication Error"), fs')
          | (Raise FileExistsError, fs') => (Some (showwarning "File Exists"), fs')
          | (Raise _, fs') => (Some (showerror "Error"), fs')
          end
      end
  end.

(** [delete_selected]; [confirmed] is the answer to the question the
    method asks. *)
Definition delete_selected (shot_directory : string) (selected : option string)
    (confirmed : bool) (fs : filesystem) : option messagebox * filesystem :=
  match selected with
  | None | Some EmptyString => (Some (showinfo "No Selection"), fs)
  | Some selected =>
      if confirmed then
        match delete_shot selected shot_directory fs with
        | (Return _, fs') => (None, (_delete_custom_metadata shot_directory selected fs').2)
        | (Raise _, fs') => (Some (showerror "Error"), fs')
        end
      else (None, fs)
  end.

(** The choices of the template box of [create_shot]. *)
Inductive template : Type := Default | Animation | Layout | Lighting.

Definition templates (t : template) : string * string :=
  match t with
  | Default => ("default", "cam_template_default.blend")
  | Animation => ("anim", "cam_template_anim.blend")
  | Layout => ("layout", "cam_template_layout.blend")
  | Lighting => ("lighting", "cam_template_lighting.blend")
  end.

(** [on_create], the command of the button of [create_shot]:
    [name_var] is the text of the name entry and [template_var] the
    choice of the template box. *)
Definition on_create (shot_directory name_var : string) (template_var : template)
    (fs : filesystem) : option messagebox * filesystem :=
  let base_name := strip name_var in
  if negb (re_match_name base_name) then (Some (showwarning "Invalid Name"), fs)
  else
    let '(template_label, template_filename) := templates template_var in
    let template_path := (join shot_directory "templates", template_filename) in
    if negb (exists_in template_path.1 template_path.2 fs)
    then (Some (showerror "Missing Template"), fs)
    else
      match create_new_shot_from_template base_name template_label template_path
              shot_directory fs with
      | (Return _, fs') => (None, fs')
      | (Raise _, fs') => (Some (showerror "Error"), fs')
      end.

End GuiActions.

Module Config.
Import Str Gui.



Section Json.

Variable json_dump : record -> list byte.
Variable json_load : list byte -> option record.



End Json.

End Config.

(** * Notions used in the statements *)

Module Notions.
Import Str StrMore.

(** Every character of [s] is a letter, a digit or an underscore. *)
Fixpoint all_word (s : string) : bool :=
  match s with
  | EmptyString => true
  | String c s' => is_word_char c && all_word s'
  end.

(** By [key] along [le], [x] is not after [y]. *)
Definition before {A K : Type} (le : K -> K -> bool) (key : A -> K) (x y : A) : Prop :=
  le (key x) (key y) = true.

(** The key of [x] is neither before nor after [k]. *)
Definition same_key {A K : Type} (le : K -> K -> bool) (key : A -> K) (k : K) (x : A)
    : bool :=
  le (key x) k && le k (key x).

(** A list sorted by [key] along [le], the elements of equal keys in
    the order they had in [files]. *)
Definition stably_sorted {K : Type} (le : K -> K -> bool) (key : string -> K)
    (files result : list string) : Prop :=
  result ≡ₚ files /\
  StronglySorted (before le key) result /\
  forall k, List.filter (same_key le key k) result = List.filter (same_key le key k) files.


End Notions.

(** * Sample inputs *)

Module Samples.
Import Str Pattern Fs Core.



(** A directory that enumerates its two shots in descending order. *)
Definition unsorted_fs : filesystem :=
  {[ "shots" := [("b_v01.blend", File []); ("a_v01.blend", File [])] ]}.

(** A shot directory with one shot. *)
Definition one_shot_fs : filesystem :=
  {[ "camera_shots" := [("SHOT_010_v01.blend", File placeholder)] ]}.


(** A shot directory whose metadata directory exists and is empty, and
    a record with an extra field. *)
Definition meta_fs : filesystem := {[ "camera_shots/_custom_meta" := [] ]}.

Definition full_record : record :=
  {[ "status" := "Approved"; "assigned_artist" := "Ada"; "due_date" := "2025-01-31";
     "notes" := "first pass"; "camera" := "B" ]}.

(** A shot directory with two shots, a template and a subdirectory. *)
Definition fs0 : filesystem :=
  {[ "shots" := [("b_v01.blend", File []); ("templates", Directory);
                 ("a_v01.blend", File placeholder); ("cam_template_x.blend", File [])] ]}.

End Samples.

(** * Facts about strings *)

Module StrFacts.
Import Str.

Lemma sapp_nil_l (s : string) : "" +:+ s = s.
Proof. reflexivity. Qed.

Lemma sapp_cons (c : ascii) (s t : string) : String c s +:+ t = String c (s +:+ t).
Proof. reflexivity. Qed.

Lemma sapp_nil_r (s : string) : s +:+ "" = s.
Proof. induction s as [|c s IH]; [reflexivity|]. rewrite sapp_cons, IH. reflexivity. Qed.

Lemma sapp_assoc (s t u : string) : (s +:+ t) +:+ u = s +:+ (t +:+ u).
Proof. induction s as [|c s IH]; [reflexivity|]. rewrite !sapp_cons, IH. reflexivity. Qed.

Lemma sapp_length (s t : string) :
  String.length (s +:+ t) = (String.length s + String.length t)%nat.
Proof.
  induction s as [|c s IH]; [reflexivity|]. rewrite sapp_cons. simpl.
  rewrite IH. reflexivity.
Qed.

(** Appends in right-nested form, literals unfolded. *)
Ltac str_norm_goal := repeat (rewrite ?sapp_assoc, ?sapp_cons, ?sapp_nil_l).
Ltac str_norm_in H := repeat (rewrite ?sapp_assoc, ?sapp_cons, ?sapp_nil_l in H).
Tactic Notation "str_norm" := str_norm_goal.
Tactic Notation "str_norm" "in" hyp(H) := str_norm_in H.

(** Two splittings of a string with tails of the same length are the
    same splitting. *)
Lemma sapp_inj_tail (x y t1 t2 : string) :
  String.length t1 = String.length t2 -> x +:+ t1 = y +:+ t2 -> x = y /\ t1 = t2.
Proof.
  intros Hlen. revert y. induction x as [|c x IH]; intros [|c' y] H.
  - rewrite !sapp_nil_l in H. auto.
  - rewrite sapp_nil_l in H. subst t1. rewrite sapp_cons in Hlen.
    simpl in Hlen. rewrite sapp_length in Hlen. lia.
  - rewrite sapp_nil_l in H. subst t2. rewrite sapp_cons in Hlen.
    simpl in Hlen. rewrite sapp_length in Hlen. lia.
  - rewrite !sapp_cons in H. injection H as -> H.
    destruct (IH y H) as [-> ->]. auto.
Qed.

(** [startswith] is the prefix relation. *)
Lemma startswith_spec (s p : string) :
  startswith s p = true <-> exists b, s = p +:+ b.
Proof.
  unfold startswith. revert s. induction p as [|a p IH]; intros s.
  - destruct s; simpl; split; eauto.
  - destruct s as [|c s]; simpl.
    + split; [discriminate|]. intros [b Hb]. discriminate.
    + destruct (ascii_dec a c) as [<- | Hne].
      * rewrite IH. split; intros [b Hb]; exists b.
        -- rewrite sapp_cons, Hb. reflexivity.
        -- rewrite sapp_cons in Hb. congruence.
      * split; [discriminate|]. intros [b Hb]. rewrite sapp_cons in Hb. congruence.
Qed.

(** [endswith] is the suffix relation. *)
Lemma endswith_spec (s p : string) :
  endswith s p = true <-> exists a, s = a +:+ p.
Proof.
  induction s as [|c s IH]; cbn [endswith].
  - destruct (String.eqb "" p) eqn:E.
    + apply String.eqb_eq in E. subst p. split; [exists ""; reflexivity | reflexivity].
    + split; [discriminate|]. intros [[|a0 a] Ha].
      * rewrite sapp_nil_l in Ha. subst p. discriminate.
      * rewrite sapp_cons in Ha. discriminate.
  - destruct (String.eqb (String c s) p) eqn:E.
    + apply String.eqb_eq in E. split; [exists ""; rewrite sapp_nil_l; congruence | reflexivity].
    + rewrite IH. split.
      * intros [a Ha]. exists (String c a). rewrite sapp_cons, Ha. reflexivity.
      * intros [[|a0 a] Ha].
        -- rewrite sapp_nil_l in Ha. subst p. rewrite String.eqb_refl in E. discriminate.
        -- rewrite sapp_cons in Ha. injection Ha as _ Ha. eauto.
Qed.


Lemma is_digit_spec (c : ascii) : is_digit c = true <-> exists d, Ascii.is_nat c = Some d.
Proof.
  unfold is_digit. rewrite bool_decide_eq_true. unfold is_Some. reflexivity.
Qed.

Lemma is_nat_lt_10 (c : ascii) (d : nat) : Ascii.is_nat c = Some d -> (d < 10)%nat.
Proof.
  destruct c as [[] [] [] [] [] [] [] []]; simpl; intros H; inversion H; lia.
Qed.

End StrFacts.

(** * Facts about numbers and their decimal text *)

Module NumFacts.
Import Str StrFacts.

Lemma is_nat_pretty_N_char (x : N) :
  x < 10 -> Ascii.is_nat (pretty_N_char x) = Some (N.to_nat x).
Proof.
  intros Hx.
  assert (Hc : x = 0 \/ x = 1 \/ x = 2 \/ x = 3 \/ x = 4 \/ x = 5 \/
               x = 6 \/ x = 7 \/ x = 8 \/ x = 9) by lia.
  repeat (destruct Hc as [-> | Hc]; [reflexivity|]). subst x. reflexivity.
Qed.

Lemma int_from_digit (acc x : N) (s : string) :
  x < 10 -> int_from acc (String (pretty_N_char x) s) = int_from (acc * 10 + x) s.
Proof.
  intros Hx. cbn [int_from]. rewrite (is_nat_pretty_N_char x Hx).
  rewrite N2Nat.id. reflexivity.
Qed.

(** Reading the digits written in front of [s] amounts to starting
    the reading of [s] from the number written. *)
Lemma int_from_pretty_go (x : N) (s : string) :
  int_from 0 (pretty_N_go x s) = int_from x s.
Proof.
  revert s. induction (N.lt_wf_0 x) as [x _ IH]. intros s.
  destruct (N.eq_dec x 0) as [-> | Hx].
  - rewrite pretty_N_go_0. reflexivity.
  - rewrite pretty_N_go_step by lia.
    rewrite IH by (apply N.div_lt; lia).
    rewrite int_from_digit by (apply N.mod_lt; lia).
    f_equal. pose proof (N.div_mod x 10). lia.
Qed.

Lemma pretty_go_length (x : N) (s : string) :
  (String.length s <= String.length (pretty_N_go x s))%nat.
Proof.
  revert s. induction (N.lt_wf_0 x) as [x _ IH]. intros s.
  destruct (N.eq_dec x 0) as [-> | Hx].
  - rewrite pretty_N_go_0. lia.
  - rewrite pretty_N_go_step by lia.
    etransitivity; [|apply IH; apply N.div_lt; lia]. simpl. lia.
Qed.

Lemma pretty_length (n : N) : (1 <= String.length (pretty n))%nat.
Proof.
  unfold pretty, pretty_N. destruct (decide (n = 0)) as [-> | Hn]; [simpl; lia|].
  rewrite pretty_N_go_step by lia.
  etransitivity; [|apply pretty_go_length]. simpl. lia.
Qed.

Lemma int_Some_from (s : string) (n : N) : int s = Some n -> int_from 0 s = Some n.
Proof. destruct s; [discriminate|]. intros H. exact H. Qed.

(** [int(str(n)) == n]. *)
Lemma int_pretty (n : N) : int (pretty n) = Some n.
Proof.
  pose proof (pretty_length n) as Hlen.
  destruct (pretty n) as [|c s] eqn:E; [simpl in Hlen; lia|].
  unfold int. rewrite <- E. unfold pretty, pretty_N.
  destruct (decide (n = 0)) as [-> | Hn]; [reflexivity|].
  rewrite int_from_pretty_go. reflexivity.
Qed.

(** The padded text of a number reads back as the number. *)
Lemma int_format_02d (n : N) : int (format_02d n) = Some n.
Proof.
  unfold format_02d. destruct (n <? 10); [|apply int_pretty].
  rewrite sapp_cons, sapp_nil_l. unfold int. cbn [int_from Ascii.is_nat].
  apply int_Some_from, int_pretty.
Qed.


(** Below 100 the padded text is exactly the two digits. *)
Lemma format_02d_two (n : N) :
  n < 100 ->
  format_02d n = String (pretty_N_char (n / 10)) (String (pretty_N_char (n mod 10)) "").
Proof.
  intros Hn. unfold format_02d. destruct (n <? 10) eqn:E.
  - apply N.ltb_lt in E. rewrite N.div_small, N.mod_small by lia.
    rewrite sapp_cons, sapp_nil_l. f_equal. unfold pretty, pretty_N.
    destruct (decide (n = 0)) as [-> | Hn0]; [reflexivity|].
    rewrite pretty_N_go_step by lia.
    rewrite N.div_small, N.mod_small by lia. rewrite pretty_N_go_0. reflexivity.
  - apply N.ltb_ge in E. unfold pretty, pretty_N.
    destruct (decide (n = 0)) as [-> | Hn0]; [lia|].
    rewrite pretty_N_go_step by lia.
    rewrite pretty_N_go_step by (apply N.div_str_pos; lia).
    assert (Hq : n / 10 < 10) by (apply N.Div0.div_lt_upper_bound; lia).
    rewrite (N.div_small (n / 10)), (N.mod_small (n / 10)) by lia.
    rewrite pretty_N_go_0. reflexivity.
Qed.

Lemma pretty_go_app (x : N) (s : string) :
  pretty_N_go x s = pretty_N_go x "" +:+ s.
Proof.
  revert s. induction (N.lt_wf_0 x) as [x _ IH]. intros s.
  destruct (N.eq_dec x 0) as [-> | Hx].
  - rewrite !pretty_N_go_0. reflexivity.
  - rewrite !(pretty_N_go_step x) by lia.
    rewrite IH by (apply N.div_lt; lia).
    rewrite (IH (x / 10) (N.div_lt x 10 ltac:(lia) ltac:(lia)) (String _ "")).
    rewrite sapp_assoc. reflexivity.
Qed.

(** From 100 on the padded text ends with three digits. *)
Lemma format_02d_wide (v : N) :
  100 <= v ->
  exists q x1 x2 x3,
    format_02d v = q +:+ String (pretty_N_char x1)
                          (String (pretty_N_char x2) (String (pretty_N_char x3) "")).
Proof.
  intros Hv. unfold format_02d. destruct (v <? 10) eqn:E; [apply N.ltb_lt in E; lia|].
  unfold pretty, pretty_N. destruct (decide (v = 0)) as [-> | Hn0]; [lia|].
  assert (H1 : 0 < v / 10) by (apply N.div_str_pos; lia).
  assert (H2 : 0 < v / 10 / 10).
  { apply N.div_str_pos. split; [lia|]. apply N.div_le_lower_bound; lia. }
  rewrite pretty_N_go_step by lia.
  rewrite pretty_N_go_step by assumption.
  rewrite pretty_N_go_step by assumption.
  rewrite pretty_go_app. eauto.
Qed.

Lemma is_digit_pretty_N_char (x : N) : is_digit (pretty_N_char x) = true.
Proof.
  unfold pretty_N_char. repeat case_match; reflexivity.
Qed.

(** The number two digits spell. *)
Lemma int_two (d1 d2 : ascii) (v1 v2 : nat) :
  Ascii.is_nat d1 = Some v1 -> Ascii.is_nat d2 = Some v2 ->
  int (String d1 (String d2 "")) = Some (N.of_nat (10 * v1 + v2)).
Proof.
  intros H1 H2. unfold int. cbn [int_from]. rewrite H1, H2. f_equal. lia.
Qed.

End NumFacts.

(** * Facts about the versioning pattern *)

Module PatternFacts.
Import Str StrFacts Pattern.

Lemma digit_cases (c : ascii) :
  is_digit c = true ->
  In c ["0"; "1"; "2"; "3"; "4"; "5"; "6"; "7"; "8"; "9"]%char.
Proof.
  destruct c as [[] [] [] [] [] [] [] []]; intros H;
    first [discriminate H | simpl; tauto].
Qed.

Lemma digit_not_LF (c : ascii) : is_digit c = true -> Ascii.eqb c LF = false.
Proof.
  intros H. apply digit_cases in H. simpl in H.
  repeat (destruct H as [<-|H]; [reflexivity|]). destruct H.
Qed.

Lemma match_suffix_blend (d1 d2 : ascii) :
  is_digit d1 = true -> is_digit d2 = true ->
  match_suffix ("_v" +:+ two d1 d2 +:+ ".blend") = Some (two d1 d2).
Proof.
  intros H1 H2. unfold two. rewrite !sapp_cons, sapp_nil_l. cbn [match_suffix].
  rewrite H1, H2. reflexivity.
Qed.

Lemma match_suffix_inv (s g2 : string) :
  match_suffix s = Some g2 ->
  exists d1 d2, g2 = two d1 d2 /\ is_digit d1 = true /\ is_digit d2 = true /\
    (s = "_v" +:+ g2 +:+ ".blend" \/ s = "_v" +:+ g2 +:+ ".blend" +:+ String LF "").
Proof.
  destruct s as [|c1 [|c2 [|d1 [|d2 rest]]]]; try discriminate;
    try (destruct c1 as [[] [] [] [] [] [] [] []]; discriminate).
  - destruct c1 as [[] [] [] [] [] [] [] []]; try discriminate;
      destruct c2 as [[] [] [] [] [] [] [] []]; discriminate.
  - destruct c1 as [[] [] [] [] [] [] [] []]; try discriminate;
      destruct c2 as [[] [] [] [] [] [] [] []]; discriminate.
  - destruct c1 as [[] [] [] [] [] [] [] []]; try discriminate;
      destruct c2 as [[] [] [] [] [] [] [] []]; try discriminate.
    cbn [match_suffix].
    destruct (is_digit d1) eqn:H1; [|discriminate].
    destruct (is_digit d2) eqn:H2; [|discriminate].
    cbn [andb].
    destruct (String.eqb rest ".blend") eqn:E1.
    + apply String.eqb_eq in E1. subst rest. intros [= <-].
      exists d1, d2. auto.
    + destruct (String.eqb rest (".blend" +:+ String LF "")) eqn:E2; [|discriminate].
      apply String.eqb_eq in E2. subst rest. intros [= <-].
      exists d1, d2. auto.
Qed.

(** What a match says about the string. *)
Lemma re_match_inv (s g1 g2 : string) :
  re_match s = Some (g1, g2) ->
  single_line g1 = true /\
  exists d1 d2, g2 = two d1 d2 /\ is_digit d1 = true /\ is_digit d2 = true /\
    (s = g1 +:+ "_v" +:+ g2 +:+ ".blend" \/
     s = g1 +:+ "_v" +:+ g2 +:+ ".blend" +:+ String LF "").
Proof.
  revert g1. induction s as [|c s IH]; intros g1; [discriminate|].
  assert (Hhere : pair "" <$> match_suffix (String c s) = Some (g1, g2) ->
    single_line g1 = true /\
    exists d1 d2, g2 = two d1 d2 /\ is_digit d1 = true /\ is_digit d2 = true /\
      (String c s = g1 +:+ "_v" +:+ g2 +:+ ".blend" \/
       String c s = g1 +:+ "_v" +:+ g2 +:+ ".blend" +:+ String LF "")).
  { destruct (match_suffix (String c s)) as [g|] eqn:E; [|discriminate].
    intros [= <- <-]. split; [reflexivity|].
    apply match_suffix_inv in E. exact E. }
  cbn [re_match]. destruct (Ascii.eqb c LF) eqn:Ec; [exact Hhere|].
  destruct (re_match s) as [[h1 h2]|] eqn:E; [|exact Hhere].
  intros [= <- <-]. destruct (IH h1 eq_refl) as (Hl & d1 & d2 & -> & H1 & H2 & Hs).
  split.
  - cbn [single_line]. rewrite Ec, Hl. reflexivity.
  - exists d1, d2. repeat split; try assumption.
    rewrite !sapp_cons. destruct Hs as [-> | ->]; [left|right]; reflexivity.
Qed.

Lemma re_match_length (s g1 g2 : string) :
  re_match s = Some (g1, g2) -> (10 <= String.length s)%nat.
Proof.
  intros H. apply re_match_inv in H as (_ & d1 & d2 & -> & _ & _ & [-> | ->]);
    rewrite !sapp_length; simpl; lia.
Qed.

(** No match starts after the first character of a matched suffix. *)
Lemma re_match_inside_suffix (c : ascii) (rest g2 : string) :
  match_suffix (String c rest) = Some g2 -> re_match rest = None.
Proof.
  intros Hm. destruct (re_match rest) as [[h1 h2]|] eqn:E; [|reflexivity].
  exfalso. apply match_suffix_inv in Hm as (d1 & d2 & -> & _ & _ & Hs).
  apply re_match_inv in E as (_ & e1 & e2 & -> & _ & _ & Hr).
  unfold two in *. str_norm in Hs. str_norm in Hr.
  destruct Hs as [Hs | Hs]; injection Hs as -> ->;
    destruct Hr as [Hr | Hr]; pose proof (f_equal String.length Hr) as Hlen;
    rewrite sapp_length in Hlen; cbn [String.length] in Hlen; try lia.
  destruct h1 as [|c1 h1]; [discriminate Hr|]. cbn [String.length] in Hlen. lia.
Qed.

(** A matched suffix alone: the first group is empty. *)
Lemma re_match_suffix (tail g2 : string) :
  match_suffix tail = Some g2 -> re_match tail = Some ("", g2).
Proof.
  intros Hm. destruct tail as [|c rest]; [discriminate|].
  cbn [re_match]. rewrite (re_match_inside_suffix c rest g2 Hm), Hm.
  destruct (Ascii.eqb c LF); reflexivity.
Qed.

(** The greedy first group takes all that precedes the suffix. *)
Lemma re_match_app (base tail g2 : string) :
  single_line base = true -> match_suffix tail = Some g2 ->
  re_match (base +:+ tail) = Some (base, g2).
Proof.
  intros Hb Hm. induction base as [|c base IH].
  - rewrite sapp_nil_l. apply re_match_suffix. exact Hm.
  - cbn [single_line] in Hb. apply andb_prop in Hb as [Hc Hb].
    rewrite sapp_cons. cbn [re_match].
    apply negb_true_iff in Hc. rewrite Hc, (IH Hb). reflexivity.
Qed.

(** The greedy first group takes the whole base name, whatever the
    base name ends with. *)
Lemma re_match_format (base : string) (d1 d2 : ascii) :
  single_line base = true -> is_digit d1 = true -> is_digit d2 = true ->
  re_match (base +:+ "_v" +:+ two d1 d2 +:+ ".blend") = Some (base, two d1 d2).
Proof.
  intros Hb H1 H2. apply re_match_app; [exact Hb|].
  apply match_suffix_blend; assumption.
Qed.

(** The strings the versioning pattern matches, and the groups of the
    match: a base name on one line, [_v], two digits and [.blend],
    with or without one final line feed. *)
Lemma re_match_iff (s g1 g2 : string) :
  re_match s = Some (g1, g2) <->
  single_line g1 = true /\
  exists d1 d2, g2 = two d1 d2 /\ is_digit d1 = true /\ is_digit d2 = true /\
    (s = g1 +:+ "_v" +:+ g2 +:+ ".blend" \/
     s = g1 +:+ "_v" +:+ g2 +:+ ".blend" +:+ String LF "").
Proof.
  split; [apply re_match_inv|].
  intros (Hl & d1 & d2 & -> & H1 & H2 & [-> | ->]).
  - apply re_match_format; assumption.
  - apply re_match_app; [exact Hl|]. unfold two. str_norm. cbn [match_suffix].
    rewrite H1, H2. reflexivity.
Qed.

(** From version 100 on the formatted name is one the versioning
    pattern refuses, whatever the base name. *)
Lemma re_match_format_wide (base : string) (v : N) :
  100 <= v -> re_match (format_name base v) = None.
Proof.
  intros Hv. destruct (re_match (format_name base v)) as [[g1 g2]|] eqn:E; [|reflexivity].
  exfalso. apply re_match_inv in E as (_ & d1 & d2 & -> & _ & _ & Hs).
  destruct (NumFacts.format_02d_wide v Hv) as (q & x1 & x2 & x3 & Hq).
  unfold format_name in Hs. rewrite Hq in Hs. unfold two in Hs.
  destruct Hs as [Hs | Hs].
  - assert (Hs' : (base +:+ "_v" +:+ q) +:+
        String (pretty_N_char x1) (String (pretty_N_char x2)
          (String (pretty_N_char x3) ".blend"))
      = (g1 +:+ "_") +:+ String "v" (String d1 (String d2 ".blend"))).
    { str_norm. str_norm in Hs. exact Hs. }
    apply sapp_inj_tail in Hs' as [_ Ht]; [|reflexivity].
    injection Ht as Ht _ _. pose proof (NumFacts.is_digit_pretty_N_char x1) as Hd.
    rewrite Ht in Hd. discriminate.
  - assert (Hs' : (base +:+ "_v" +:+ q +:+
        String (pretty_N_char x1) (String (pretty_N_char x2)
          (String (pretty_N_char x3) ".blen"))) +:+ "d"
      = (g1 +:+ "_v" +:+ String d1 (String d2 ".blend")) +:+ String LF "").
    { str_norm. str_norm in Hs. exact Hs. }
    apply sapp_inj_tail in Hs' as [_ Ht]; [|reflexivity]. discriminate.
Qed.

End PatternFacts.

(** * Facts about the file system *)

Module FsFacts.
Import Fs.

Lemma entry_set_entry_eq (name : string) (x : node) (d : directory) :
  entry name (set_entry name x d) = Some x.
Proof.
  induction d as [|[n y] d IH]; cbn [set_entry entry].
  - rewrite String.eqb_refl. reflexivity.
  - destruct (String.eqb n name) eqn:E; cbn [entry]; rewrite E; [reflexivity|exact IH].
Qed.

Lemma entry_set_entry_ne (name name' : string) (x : node) (d : directory) :
  name <> name' -> entry name' (set_entry name x d) = entry name' d.
Proof.
  intros Hne. induction d as [|[n y] d IH]; cbn [set_entry entry].
  - apply String.eqb_neq in Hne. rewrite Hne. reflexivity.
  - destruct (String.eqb n name) eqn:E; cbn [entry].
    + apply String.eqb_eq in E. subst n.
      apply String.eqb_neq in Hne. rewrite Hne. reflexivity.
    + rewrite IH. reflexivity.
Qed.

(** A new entry goes to the end of the directory. *)
Lemma set_entry_fresh (name : string) (x : node) (d : directory) :
  entry name d = None -> set_entry name x d = d ++ [(name, x)].
Proof.
  induction d as [|[n y] d IH]; cbn [set_entry entry]; [reflexivity|].
  destruct (String.eqb n name); [discriminate|].
  intros H. rewrite (IH H). reflexivity.
Qed.

Lemma exists_in_lookup (shot_directory name : string) (fs : filesystem) (d : directory) :
  fs !! shot_directory = Some d ->
  exists_in shot_directory name fs = bool_decide (is_Some (entry name d)).
Proof. intros H. unfold exists_in. rewrite H. reflexivity. Qed.

Lemma exists_in_false (shot_directory name : string) (fs : filesystem) (d : directory) :
  fs !! shot_directory = Some d ->
  exists_in shot_directory name fs = false -> entry name d = None.
Proof.
  intros H. rewrite (exists_in_lookup _ _ _ _ H), bool_decide_eq_false.
  destruct (entry name d); [intros []; eauto|reflexivity].
Qed.



End FsFacts.

(** * Properties of core.py *)

Module CoreSpec.
Import Str StrFacts NumFacts Pattern PatternFacts Fs FsFacts Core Samples.

(** ** The filename codec *)

(** Formatting a single-line base name with a version below 100 and
    parsing the result gives the base name and the version back. *)
Lemma parse_format_name (base : string) (v : N) :
  single_line base = true -> v < 100 -> parse (format_name base v) = Some (base, v).
Proof.
  intros Hb Hv. unfold parse, format_name.
  pose proof (int_format_02d v) as Hint.
  rewrite (format_02d_two v Hv) in *.
  change (String ?a (String ?b "")) with (two a b) in *.
  rewrite re_match_format by auto using is_digit_pretty_N_char.
  rewrite Hint. reflexivity.
Qed.

(** From version 100 on the formatted name does not parse. *)
Lemma parse_format_name_wide (base : string) (v : N) :
  100 <= v -> parse (format_name base v) = None.
Proof. intros Hv. unfold parse. rewrite re_match_format_wide by assumption. reflexivity. Qed.

(** ** duplicate_shot *)




(** C2: for every file name matching the versioning pattern whose
    source exists, if the name of the next version is already taken,
    [duplicate_shot] raises [FileExistsError] (it looks for no later
    free version) and leaves the file system as it was, so the source
    and the file in the way keep their bytes. *)
Theorem duplicate_shot_target_exists
    (original_filename base : string) (v : N) (shot_directory : string) (fs : filesystem) :
  parse original_filename = Some (base, v) ->
  exists_in shot_directory original_filename fs = true ->
  exists_in shot_directory (format_name base (v + 1)) fs = true ->
  duplicate_shot original_filename shot_directory fs = (Raise FileExistsError, fs).
Proof.
  unfold parse, duplicate_shot. intros Hp Hsrc Hnew.
  destruct (re_match original_filename) as [[b g]|]; [|discriminate].
  destruct (int g) as [n|]; [|discriminate].
  injection Hp as -> ->. cbv zeta. rewrite Hsrc, Hnew. reflexivity.
Qed.

Lemma duplicate_shot_target_exists_witness :
  duplicate_shot "a_v01.blend" "shots"
    {[ "shots" := [("a_v01.blend", File placeholder); ("a_v02.blend", File [])] ]}
  = (Raise FileExistsError,
     {[ "shots" := [("a_v01.blend", File placeholder); ("a_v02.blend", File [])] ]}).
Proof.
  apply (duplicate_shot_target_exists "a_v01.blend" "a" 1 "shots"); vm_compute; reflexivity.
Defined.

(** C6: for every file name the versioning pattern does not match,
    [duplicate_shot] raises [ValueError] and hands back the file
    system untouched, whether or not a file of that name exists. *)
Theorem duplicate_shot_invalid_name
    (original_filename shot_directory : string) (fs : filesystem) :
  re_match original_filename = None ->
  duplicate_shot original_filename shot_directory fs = (Raise ValueError, fs).
Proof. intros H. unfold duplicate_shot. rewrite H. reflexivity. Qed.

Lemma duplicate_shot_invalid_name_witness :
  duplicate_shot "badname.blend" "shots" {[ "shots" := [("badname.blend", File [])] ]}
  = (Raise ValueError, {[ "shots" := [("badname.blend", File [])] ]}).
Proof. apply duplicate_shot_invalid_name. vm_compute. reflexivity. Defined.

(** C3: duplicating version 99 writes a file named [_v100], a name
    the versioning pattern of this very function refuses: the codec
    does not round-trip at 100, and the new shot cannot be duplicated
    again. *)
Theorem duplicate_shot_v99_not_parsed :
  let fs : filesystem := {[ "shots" := [("SHOT_010_v99.blend", File placeholder)] ]} in
  format_name "SHOT_010" 100 = "SHOT_010_v100.blend" /\
  parse (format_name "SHOT_010" 100) = None /\
  (duplicate_shot "SHOT_010_v99.blend" "shots" fs).1 = Return "SHOT_010_v100.blend" /\
  (duplicate_shot "SHOT_010_v100.blend" "shots"
     (duplicate_shot "SHOT_010_v99.blend" "shots" fs).2).1 = Raise ValueError.
Proof. repeat split; vm_compute; reflexivity. Qed.

(** ** create_new_shot *)




(** ** list_shots *)

Lemma is_shot_file_spec (f : string) :
  is_shot_file f = true <->
  (exists a, f = a +:+ ".blend") /\ ~ (exists b, f = "cam_template_" +:+ b).
Proof.
  unfold is_shot_file. rewrite andb_true_iff, negb_true_iff.
  rewrite endswith_spec, <- startswith_spec, not_true_iff_false. reflexivity.
Qed.

(** C4, as stated, fails: the directory enumerates [b_v01.blend]
    before [a_v01.blend], and [list_shots] returns them the other way
    round. *)
Lemma list_shots_not_listdir_order :
  List.filter is_shot_file (listdir [("b_v01.blend", File []); ("a_v01.blend", File [])])
    = ["b_v01.blend"; "a_v01.blend"] /\
  list_shots "shots" unsorted_fs = ["a_v01.blend"; "b_v01.blend"].
Proof. split; vm_compute; reflexivity. Qed.

(** C4 (amended): on an existing shot directory [list_shots] returns
    the entries whose name ends with [.blend] and does not start with
    [cam_template_], each as often as the directory lists it, in
    ascending order of the names by code points; on a missing shot
    directory it returns the empty list. *)
Theorem list_shots_sorted (shot_directory : string) (fs : filesystem) :
  match fs !! shot_directory with
  | Some d =>
      list_shots shot_directory fs ≡ₚ List.filter is_shot_file (listdir d) /\
      StronglySorted String.le (list_shots shot_directory fs) /\
      (forall f, f ∈ list_shots shot_directory fs <->
         f ∈ listdir d /\ (exists a, f = a +:+ ".blend") /\
         ~ (exists b, f = "cam_template_" +:+ b))
  | None => list_shots shot_directory fs = []
  end.
Proof.
  unfold list_shots. destruct (fs !! shot_directory) as [d|]; [|reflexivity].
  assert (Hp : sorted (List.filter is_shot_file (listdir d))
               ≡ₚ List.filter is_shot_file (listdir d))
    by apply merge_sort_Permutation.
  split; [exact Hp|]. split; [apply StronglySorted_merge_sort; apply _|].
  intros f. rewrite Hp, list_elem_of_In, filter_In, <- list_elem_of_In, is_shot_file_spec.
  reflexivity.
Qed.

End CoreSpec.

(** * The reference codec round-trips *)

Module JsonFacts.
Import Str StrFacts JsonText.

Lemma unquote_escape (t rest : string) :
  unquote (escape t +:+ String QUOTE rest) = Some (t, rest).
Proof.
  induction t as [|c t IH]; [reflexivity|].
  cbn [escape]. unfold escape_char.
  destruct (Ascii.eqb c QUOTE) eqn:E1.
  { apply Ascii.eqb_eq in E1. subst c. str_norm. cbn. rewrite IH. reflexivity. }
  destruct (Ascii.eqb c BACKSLASH) eqn:E2.
  { apply Ascii.eqb_eq in E2. subst c. str_norm. cbn. rewrite IH. reflexivity. }
  destruct (Ascii.eqb c LF) eqn:E3.
  { apply Ascii.eqb_eq in E3. subst c. str_norm. cbn. rewrite IH. reflexivity. }
  str_norm. cbn [unquote]. rewrite E1, E2, IH. reflexivity.
Qed.

Lemma expect_put_string (t rest : string) :
  expect QUOTE (put_string t rest) = Some (escape t +:+ String QUOTE rest).
Proof. reflexivity. Qed.

Lemma parse_members_LF (fuel : nat) (s : string) :
  parse_members fuel (String LF s) = parse_members fuel s.
Proof. destruct fuel; reflexivity. Qed.

Lemma parse_members_members (l : list (string * string)) (fuel : nat) :
  l <> [] -> (length l <= fuel)%nat -> parse_members fuel (members l) = Some l.
Proof.
  revert fuel. induction l as [|[k v] l IH]; intros fuel Hne Hfuel; [congruence|].
  destruct fuel as [|fuel]; [simpl in Hfuel; lia|].
  cbn [members parse_members].
  change (expect QUOTE ("    " +:+ put_string k ?r)) with (expect QUOTE (put_string k r)).
  rewrite expect_put_string. cbn [mbind option_bind].
  rewrite unquote_escape. cbn [mbind option_bind].
  change (expect ":" (": " +:+ ?r)) with (Some (" " +:+ r)). cbn [mbind option_bind].
  change (expect QUOTE (" " +:+ put_string v ?r)) with (expect QUOTE (put_string v r)).
  rewrite expect_put_string. cbn [mbind option_bind].
  rewrite unquote_escape. cbn [mbind option_bind].
  destruct l as [|kv l]; [reflexivity|].
  change (skip (String "," ?r)) with (String "," r). cbv iota.
  change (Ascii.eqb "," ",") with true. cbv iota.
  rewrite parse_members_LF, IH; [reflexivity|discriminate|simpl in *; lia].
Qed.

Lemma members_length (l : list (string * string)) :
  (length l <= String.length (members l))%nat.
Proof.
  induction l as [|[k v] l IH]; [simpl; lia|].
  cbn [members]. unfold put_string. str_norm. cbn [String.length].
  rewrite sapp_length. cbn [String.length]. rewrite sapp_length. cbn [String.length].
  destruct l; cbn [String.length length] in *; lia.
Qed.

(** Reading the text written for a list of members gives the list. *)
Lemma loads_dumps (l : list (string * string)) : loads (dumps l) = Some l.
Proof.
  destruct l as [|kv l]; [reflexivity|].
  unfold dumps, loads.
  change (expect "{" (String "{" ?r)) with (Some r). cbn [mbind option_bind].
  assert (Hclose : expect "}" (String LF (members (kv :: l))) = None).
  { destruct kv as [k v]. reflexivity. }
  rewrite Hclose, parse_members_LF.
  apply parse_members_members; [discriminate|].
  cbn [String.length]. pose proof (members_length (kv :: l)). lia.
Qed.

(** Reading the bytes written for a record gives the record. *)
Lemma json_load_dump (data : record) : json_load (json_dump data) = Some data.
Proof.
  unfold json_load, json_dump.
  rewrite String.string_of_list_byte_of_string, loads_dumps. cbn [fmap option_fmap option_map].
  f_equal. rewrite <- (list_to_map_to_list data) at 2.
  apply list_to_map_proper.
  - rewrite fmap_reverse, reverse_Permutation. apply NoDup_fst_map_to_list.
  - apply reverse_Permutation.
Qed.

End JsonFacts.

(** * Properties of cli.py *)

Module CliSpec.
Import Fs Core Cli Samples.

(** Whatever the options, the script prints nothing, leaves the file
    system as it was, and ends with status 1 as soon as one option is
    given: each call of a function of [core.py] lacks the shot
    directory and raises [TypeError]. *)
Lemma main_calls_nothing (a : args) (fs : filesystem) :
  main a fs =
  {| stdout := [];
     exit_status :=
       if truthy (args_create a) || args_list a ||
          truthy (args_duplicate a) || truthy (args_delete a)
       then 1 else 0;
     files := fs |}.
Proof.
  destruct a as [c l d r]. unfold main, statements, seq, when, expr.
  cbn [args_create args_list args_duplicate args_delete].
  destruct c as [c|]; cbn [truthy]; [destruct (negb (String.eqb c "")); [reflexivity|]|];
    (destruct l; [reflexivity|]);
    (destruct d as [d|]; cbn [truthy]; [destruct (negb (String.eqb d "")); [reflexivity|]|]);
    (destruct r as [r|]; cbn [truthy]; [destruct (negb (String.eqb r "")); reflexivity|]);
    reflexivity.
Qed.

(** C8: with the option [--list] on a directory that holds one shot,
    listing that directory succeeds, yet the script prints nothing and
    ends with status 1; with [--duplicate] the shot is not duplicated
    either, although [duplicate_shot] on the directory would return
    the next version. *)
Theorem cli_list_fails :
  list_shots "camera_shots" one_shot_fs = ["SHOT_010_v01.blend"] /\
  main {| args_create := None; args_list := true;
          args_duplicate := None; args_delete := None |} one_shot_fs
    = {| stdout := []; exit_status := 1; files := one_shot_fs |} /\
  (duplicate_shot "SHOT_010_v01.blend" "camera_shots" one_shot_fs).1
    = Return "SHOT_010_v02.blend" /\
  main {| args_create := None; args_list := false;
          args_duplicate := Some "SHOT_010_v01.blend"; args_delete := None |} one_shot_fs
    = {| stdout := []; exit_status := 1; files := one_shot_fs |}.
Proof.
  split; [vm_compute; reflexivity|]. split; [apply main_calls_nothing|].
  split; [vm_compute; reflexivity|apply main_calls_nothing].
Qed.

End CliSpec.

(** * Properties of shotman.py *)

Module GuiSpec.
Import Str StrFacts Fs FsFacts Gui Samples.

(** ** Filtering *)





(** ** Custom metadata *)

Section Metadata.

Variable json_dump : record -> list byte.
Variable json_load : list byte -> option record.

(** The contract of the [json] module on records. *)
Hypothesis json_load_dump : forall data : record, json_load (json_dump data) = Some data.

(** Saving succeeds when the metadata directory exists and the name
    of the metadata file is not that of a directory. *)
Lemma save_succeeds (shot_directory filename : string) (data : record)
    (fs : filesystem) (d : directory) :
  fs !! join shot_directory CUSTOM_METADATA_SUBDIR = Some d ->
  entry (splitext_root filename +:+ ".json") d <> Some Directory ->
  (_save_custom_metadata json_dump shot_directory filename data fs).1 = true.
Proof.
  intros Hd Hn. unfold _save_custom_metadata, _get_custom_metadata_path, write_file.
  rewrite Hd. destruct (entry _ d) as [[|]|]; try reflexivity. congruence.
Qed.

(** After a save that succeeded the metadata file holds the bytes
    written. *)
Lemma save_writes (shot_directory filename : string) (data : record) (fs : filesystem) :
  (_save_custom_metadata json_dump shot_directory filename data fs).1 = true ->
  let fs' := (_save_custom_metadata json_dump shot_directory filename data fs).2 in
  exists_in (join shot_directory CUSTOM_METADATA_SUBDIR)
            (splitext_root filename +:+ ".json") fs' = true /\
  read_file (join shot_directory CUSTOM_METADATA_SUBDIR)
            (splitext_root filename +:+ ".json") fs' = Some (json_dump data).
Proof.
  unfold _save_custom_metadata, _get_custom_metadata_path, write_file.
  destruct (fs !! join shot_directory CUSTOM_METADATA_SUBDIR) as [d|]; [|discriminate].
  assert (Hw : forall fs0 : filesystem,
    let fs' := <[join shot_directory CUSTOM_METADATA_SUBDIR :=
                   set_entry (splitext_root filename +:+ ".json") (File (json_dump data)) d]> fs0 in
    exists_in (join shot_directory CUSTOM_METADATA_SUBDIR)
              (splitext_root filename +:+ ".json") fs' = true /\
    read_file (join shot_directory CUSTOM_METADATA_SUBDIR)
              (splitext_root filename +:+ ".json") fs' = Some (json_dump data)).
  { intros fs0 fs'. unfold exists_in, read_file, fs'.
    rewrite lookup_insert_eq, entry_set_entry_eq.
    split; [apply bool_decide_eq_true_2; eauto | reflexivity]. }
  destruct (entry _ d) as [[|]|]; cbn [fst snd]; intros H; try discriminate; apply Hw.
Qed.

Lemma load_saved (shot_directory filename : string) (data : record) (fs : filesystem) :
  (_save_custom_metadata json_dump shot_directory filename data fs).1 = true ->
  _load_custom_metadata json_load shot_directory filename
    (_save_custom_metadata json_dump shot_directory filename data fs).2 = data.
Proof.
  intros Hs. destruct (save_writes _ _ _ _ Hs) as [He Hr].
  unfold _load_custom_metadata, _get_custom_metadata_path.
  rewrite He, Hr, json_load_dump. reflexivity.
Qed.

(** C7: for every file name and every record of string fields (the
    four recognized ones and any others), after a save that reports
    success, loading under the same file name returns the record
    saved. *)
Theorem save_then_load (shot_directory filename : string) (R : record) (fs : filesystem) :
  (_save_custom_metadata json_dump shot_directory filename R fs).1 = true ->
  _load_custom_metadata json_load shot_directory filename
    (_save_custom_metadata json_dump shot_directory filename R fs).2 = R.
Proof. apply load_saved. Qed.



End Metadata.

(** With the reference codec in the place of the [json] module the
    round trip holds outright. *)
Corollary load_saved_json_text (shot_directory filename : string) (data : record)
    (fs : filesystem) :
  (_save_custom_metadata JsonText.json_dump shot_directory filename data fs).1 = true ->
  _load_custom_metadata JsonText.json_load shot_directory filename
    (_save_custom_metadata JsonText.json_dump shot_directory filename data fs).2 = data.
Proof. apply load_saved, JsonFacts.json_load_dump. Qed.

Lemma save_then_load_witness :
  _load_custom_metadata JsonText.json_load "camera_shots" "SHOT_010_v01.blend"
    (_save_custom_metadata JsonText.json_dump "camera_shots" "SHOT_010_v01.blend"
       full_record meta_fs).2 = full_record.
Proof.
  apply (save_then_load JsonText.json_dump JsonText.json_load JsonFacts.json_load_dump).
  vm_compute. reflexivity.
Defined.


End GuiSpec.

(** * More facts about the file system *)

Module FsMore.
Import Fs FsFacts.

Lemma entry_remove_entry_eq (name : string) (d : directory) :
  entry name (remove_entry name d) = None.
Proof.
  induction d as [|[n x] d IH]; cbn [remove_entry entry]; [reflexivity|].
  destruct (String.eqb n name) eqn:E; [exact IH|]. cbn [entry]. rewrite E. exact IH.
Qed.

Lemma entry_remove_entry_ne (name name' : string) (d : directory) :
  name <> name' -> entry name' (remove_entry name d) = entry name' d.
Proof.
  intros Hne. induction d as [|[n x] d IH]; cbn [remove_entry entry]; [reflexivity|].
  destruct (String.eqb n name) eqn:E.
  - apply String.eqb_eq in E. subst n.
    apply String.eqb_neq in Hne. rewrite Hne. exact IH.
  - cbn [entry]. rewrite IH. reflexivity.
Qed.

Lemma entry_app (name : string) (d d' : directory) :
  entry name (d ++ d') = match entry name d with Some x => Some x | None => entry name d' end.
Proof.
  induction d as [|[n x] d IH]; cbn [app entry]; [reflexivity|].
  destruct (String.eqb n name); [reflexivity|exact IH].
Qed.

Lemma exists_in_true (shot_directory name : string) (fs : filesystem) :
  exists_in shot_directory name fs = true <->
  exists d x, fs !! shot_directory = Some d /\ entry name d = Some x.
Proof.
  unfold exists_in. destruct (fs !! shot_directory) as [d|].
  - rewrite bool_decide_eq_true. split.
    + intros [x Hx]. eauto.
    + intros (d' & x & [= <-] & Hx). eauto.
  - split; [discriminate|]. intros (d & x & H & _). discriminate.
Qed.


Lemma write_file_inv (shot_directory name : string) (data : list byte)
    (fs fs' : filesystem) :
  write_file shot_directory name data fs = Some fs' ->
  exists d, fs !! shot_directory = Some d /\ entry name d <> Some Directory /\
            fs' = <[shot_directory := set_entry name (File data) d]> fs.
Proof.
  unfold write_file. destruct (fs !! shot_directory) as [d|]; [|discriminate].
  destruct (entry name d) as [[|]|] eqn:E; try discriminate;
    intros [= <-]; exists d; repeat split; congruence.
Qed.

Lemma read_file_inv (shot_directory name : string) (data : list byte) (fs : filesystem) :
  read_file shot_directory name fs = Some data <->
  exists d, fs !! shot_directory = Some d /\ entry name d = Some (File data).
Proof.
  unfold read_file. destruct (fs !! shot_directory) as [d|].
  - destruct (entry name d) as [[data'|]|] eqn:E; split;
      first [ discriminate
            | intros [= <-]; eauto; fail
            | intros (d' & [= <-] & H); congruence ].
  - split; [discriminate|]. intros (d & H & _). discriminate.
Qed.

(** Adding an entry under a name that is free keeps every file that
    can be read. *)
Lemma read_file_add (shot_directory new : string) (x : node) (d : directory)
    (fs : filesystem) (directory' name : string) (data : list byte) :
  fs !! shot_directory = Some d -> entry new d = None ->
  read_file directory' name fs = Some data ->
  read_file directory' name (<[shot_directory := d ++ [(new, x)]]> fs) = Some data.
Proof.
  intros Hd Hnew Hr. apply read_file_inv in Hr as (d' & Hd' & He).
  apply read_file_inv. destruct (decide (shot_directory = directory')) as [<- | Hne].
  - rewrite lookup_insert_eq. eexists. split; [reflexivity|].
    rewrite entry_app. replace d' with d in He by congruence. rewrite He. reflexivity.
  - rewrite lookup_insert_ne by assumption. eauto.
Qed.

Lemma read_file_makedirs (shot_directory directory' name : string) (fs : filesystem) :
  read_file directory' name (makedirs shot_directory fs) = read_file directory' name fs.
Proof.
  unfold makedirs. destruct (fs !! shot_directory) as [d|] eqn:Hd; [reflexivity|].
  unfold read_file. destruct (decide (shot_directory = directory')) as [<- | Hne].
  - rewrite lookup_insert_eq, Hd. reflexivity.
  - rewrite lookup_insert_ne by assumption. reflexivity.
Qed.

Lemma exists_in_makedirs (shot_directory directory' name : string) (fs : filesystem) :
  exists_in directory' name (makedirs shot_directory fs) = exists_in directory' name fs.
Proof.
  unfold makedirs. destruct (fs !! shot_directory) as [d|] eqn:Hd; [reflexivity|].
  unfold exists_in. destruct (decide (shot_directory = directory')) as [<- | Hne].
  - rewrite lookup_insert_eq, Hd. apply bool_decide_eq_false_2. intros [x Hx]. discriminate.
  - rewrite lookup_insert_ne by assumption. reflexivity.
Qed.


End FsMore.

(** * Further properties of core.py *)

Module CoreMore.
Import Str StrFacts NumFacts Pattern PatternFacts Fs FsFacts FsMore Core CoreTemplate.

(** ** The codec *)

Lemma pretty_N_char_is_nat (c : ascii) (d : nat) :
  Ascii.is_nat c = Some d -> pretty_N_char (N.of_nat d) = c.
Proof.
  destruct c as [[] [] [] [] [] [] [] []]; cbn [Ascii.is_nat]; intros [= <-]; reflexivity.
Qed.

(** Two digits spell a number below 100 whose padded text they are. *)
Lemma int_two_digits (d1 d2 : ascii) :
  is_digit d1 = true -> is_digit d2 = true ->
  exists v, int (two d1 d2) = Some v /\ v < 100 /\ format_02d v = two d1 d2.
Proof.
  intros H1 H2. apply is_digit_spec in H1 as [a Ha]. apply is_digit_spec in H2 as [b Hb].
  pose proof (is_nat_lt_10 _ _ Ha) as La. pose proof (is_nat_lt_10 _ _ Hb) as Lb.
  exists (N.of_nat (10 * a + b)). split; [apply int_two; assumption|].
  split; [lia|]. rewrite format_02d_two by lia. unfold two.
  replace (N.of_nat (10 * a + b) / 10) with (N.of_nat a).
  2:{ apply (N.div_unique _ 10 _ (N.of_nat b)); lia. }
  replace (N.of_nat (10 * a + b) mod 10) with (N.of_nat b).
  2:{ apply (N.mod_unique _ 10 (N.of_nat a)); lia. }
  rewrite (pretty_N_char_is_nat _ _ Ha), (pretty_N_char_is_nat _ _ Hb). reflexivity.
Qed.

Lemma parse_inv (filename base : string) (v : N) :
  parse filename = Some (base, v) ->
  single_line base = true /\ v < 100 /\
  re_match filename = Some (base, format_02d v) /\ int (format_02d v) = Some v /\
  (filename = format_name base v \/ filename = format_name base v +:+ String LF "").
Proof.
  unfold parse. destruct (re_match filename) as [[b g2]|] eqn:E; [|discriminate].
  destruct (int g2) as [n|] eqn:En; [|discriminate]. intros [= -> ->].
  destruct (re_match_inv _ _ _ E) as (Hl & d1 & d2 & -> & H1 & H2 & Hs).
  destruct (int_two_digits d1 d2 H1 H2) as (v' & Hv' & Hlt & Hf).
  assert (v' = v) as -> by congruence. rewrite Hf.
  split; [exact Hl|]. split; [exact Hlt|]. split; [reflexivity|]. split; [exact En|].
  unfold format_name. rewrite Hf.
  destruct Hs as [-> | ->]; [left|right]; str_norm; reflexivity.
Qed.

(** X1: the versioning pattern accepts exactly the names made of a
    base on one line, [_v], two digits and [.blend], with or without
    one final line feed; the groups are the base and the digits. *)
Theorem versioning_pattern_matches (s g1 g2 : string) :
  re_match s = Some (g1, g2) <->
  single_line g1 = true /\
  exists d1 d2, g2 = two d1 d2 /\ is_digit d1 = true /\ is_digit d2 = true /\
    (s = g1 +:+ "_v" +:+ g2 +:+ ".blend" \/
     s = g1 +:+ "_v" +:+ g2 +:+ ".blend" +:+ String LF "").
Proof. apply re_match_iff. Qed.



(** ** duplicate_shot *)

Lemma duplicate_shot_ok (original_filename base : string) (v : N)
    (shot_directory : string) (fs : filesystem) (d : directory) (data : list byte) :
  parse original_filename = Some (base, v) ->
  fs !! shot_directory = Some d ->
  entry original_filename d = Some (File data) ->
  entry (format_name base (v + 1)) d = None ->
  duplicate_shot original_filename shot_directory fs
  = (Return (format_name base (v + 1)),
     <[shot_directory := d ++ [(format_name base (v + 1), File data)]]> fs).
Proof.
  intros Hp Hd Hsrc Hnew. apply parse_inv in Hp as (_ & _ & Hm & Hi & _).
  unfold duplicate_shot. rewrite Hm, Hi. cbv zeta.
  rewrite !(exists_in_lookup _ _ _ _ Hd), Hsrc, Hnew.
  rewrite bool_decide_eq_true_2 by eauto.
  rewrite bool_decide_eq_false_2 by (intros [x Hx]; discriminate).
  cbn [negb]. unfold copy2, read_file, write_file. rewrite Hd, Hsrc, Hnew.
  rewrite set_entry_fresh by assumption. reflexivity.
Qed.

Lemma duplicate_shot_inv (original_filename shot_directory new : string)
    (fs fs' : filesystem) :
  duplicate_shot original_filename shot_directory fs = (Return new, fs') ->
  exists base v d data,
    parse original_filename = Some (base, v) /\
    new = format_name base (v + 1) /\
    fs !! shot_directory = Some d /\
    entry original_filename d = Some (File data) /\
    entry new d = None /\
    fs' = <[shot_directory := d ++ [(new, File data)]]> fs.
Proof.
  unfold duplicate_shot, parse.
  destruct (re_match original_filename) as [[b g2]|]; [|discriminate].
  destruct (int g2) as [v|]; [|discriminate]. cbv zeta.
  destruct (exists_in shot_directory original_filename fs) eqn:Hsrc; [|discriminate].
  destruct (exists_in shot_directory (format_name b (v + 1)) fs) eqn:Hnew; [discriminate|].
  cbn [negb]. unfold copy2.
  destruct (read_file shot_directory original_filename fs) as [data|] eqn:Hr; [|discriminate].
  destruct (write_file _ _ _ fs) as [fs1|] eqn:Hw; [|discriminate].
  intros [= <- <-]. apply read_file_inv in Hr as (d & Hd & He).
  apply write_file_inv in Hw as (d' & Hd' & _ & ->).
  assert (d' = d) as -> by congruence.
  pose proof (exists_in_false _ _ _ _ Hd Hnew) as Hfree.
  exists b, v, d, data. rewrite set_entry_fresh by assumption. auto 10.
Qed.

(** X3: whenever [duplicate_shot] returns, the name given parsed to a
    base and a version, the name returned is that base with the next
    version, it was free, the source is a file, and the file system
    changed by exactly one entry, put last in the shot directory, with
    the bytes of the source. *)
Theorem duplicate_shot_returns (original_filename shot_directory new : string)
    (fs fs' : filesystem) :
  duplicate_shot original_filename shot_directory fs = (Return new, fs') ->
  exists base v d data,
    parse original_filename = Some (base, v) /\
    new = format_name base (v + 1) /\
    fs !! shot_directory = Some d /\
    entry original_filename d = Some (File data) /\
    entry new d = None /\
    fs' = <[shot_directory := d ++ [(new, File data)]]> fs.
Proof. apply duplicate_shot_inv. Qed.

Lemma duplicate_shot_returns_witness :
  exists base v d data,
    parse "a_v09.blend" = Some (base, v) /\
    "a_v10.blend" = format_name base (v + 1) /\
    ({[ "shots" := [("a_v09.blend", File [x00])] ]} : filesystem) !! "shots" = Some d /\
    entry "a_v09.blend" d = Some (File data) /\
    entry "a_v10.blend" d = None /\
    ({[ "shots" := [("a_v09.blend", File [x00]); ("a_v10.blend", File [x00])] ]} : filesystem)
    = <["shots" := d ++ [("a_v10.blend", File data)]]>
        ({[ "shots" := [("a_v09.blend", File [x00])] ]} : filesystem).
Proof.
  apply (duplicate_shot_returns "a_v09.blend" "shots" "a_v10.blend").
  vm_compute. reflexivity.
Defined.

Lemma duplicate_shot_raise_inv (original_filename shot_directory : string) (e : exn)
    (fs fs' : filesystem) :
  duplicate_shot original_filename shot_directory fs = (Raise e, fs') ->
  fs' = fs /\
  match e with
  | ValueError => re_match original_filename = None
  | FileNotFoundError =>
      is_Some (parse original_filename) /\
      exists_in shot_directory original_filename fs = false
  | FileExistsError =>
      exists_in shot_directory original_filename fs = true /\
      exists base v, parse original_filename = Some (base, v) /\
        exists_in shot_directory (format_name base (v + 1)) fs = true
  | Exception =>
      exists d, fs !! shot_directory = Some d /\
                entry original_filename d = Some Directory
  | IOError | TypeError => False
  end.
Proof.
  unfold duplicate_shot, parse.
  destruct (re_match original_filename) as [[b g2]|] eqn:Hm; [|intros [= <- <-]; auto].
  destruct (re_match_inv _ _ _ Hm) as (_ & d1 & d2 & -> & H1 & H2 & _).
  destruct (int_two_digits d1 d2 H1 H2) as (v & -> & _ & _). cbv zeta.
  destruct (exists_in shot_directory original_filename fs) eqn:Hsrc;
    [|intros [= <- <-]; eauto].
  destruct (exists_in shot_directory (format_name b (v + 1)) fs) eqn:Hnew;
    [intros [= <- <-]; eauto 10|].
  cbn [negb]. unfold copy2, read_file, write_file.
  apply exists_in_true in Hsrc as (d & x & Hd & Hx). rewrite Hd, Hx.
  pose proof (exists_in_false _ _ _ _ Hd Hnew) as Hfree.
  destruct x as [data|]; [rewrite Hfree; discriminate|].
  intros [= <- <-]. eauto.
Qed.

(** X4: whenever [duplicate_shot] raises, the file system is
    untouched, and the exception tells why: [ValueError] for a name
    the pattern refuses, [FileNotFoundError] for a missing source
    (even when the target exists), [FileExistsError] for a taken
    target, [Exception] for a source that is a directory. *)
Theorem duplicate_shot_raises (original_filename shot_directory : string) (e : exn)
    (fs fs' : filesystem) :
  duplicate_shot original_filename shot_directory fs = (Raise e, fs') ->
  fs' = fs /\
  match e with
  | ValueError => re_match original_filename = None
  | FileNotFoundError =>
      is_Some (parse original_filename) /\
      exists_in shot_directory original_filename fs = false
  | FileExistsError =>
      exists_in shot_directory original_filename fs = true /\
      exists base v, parse original_filename = Some (base, v) /\
        exists_in shot_directory (format_name base (v + 1)) fs = true
  | Exception =>
      exists d, fs !! shot_directory = Some d /\
                entry original_filename d = Some Directory
  | IOError | TypeError => False
  end.
Proof. apply duplicate_shot_raise_inv. Qed.

Lemma duplicate_shot_raises_witness :
  ({[ "shots" := [("a_v02.blend", File [])] ]} : filesystem)
  = {[ "shots" := [("a_v02.blend", File [])] ]} /\
  is_Some (parse "a_v01.blend") /\
  exists_in "shots" "a_v01.blend" {[ "shots" := [("a_v02.blend", File [])] ]} = false.
Proof.
  apply (duplicate_shot_raises "a_v01.blend" "shots" FileNotFoundError).
  vm_compute. reflexivity.
Defined.

Lemma format_name_inj (base : string) (v w : N) :
  format_name base v = format_name base w -> v = w.
Proof.
  unfold format_name. intros H. apply (inj (String.app base)) in H.
  apply (inj (String.app "_v")) in H.
  apply sapp_inj_tail in H as [Hf _]; [|reflexivity].
  pose proof (int_format_02d v) as Hv. rewrite Hf, int_format_02d in Hv. congruence.
Qed.

(** X5: duplicating a shot and then the shot just made gives the two
    next versions in turn; both new files carry the bytes of the
    first, in this order at the end of the directory. *)
Theorem duplicate_shot_twice (base : string) (v : N) (shot_directory : string)
    (fs : filesystem) (d : directory) (data : list byte) :
  single_line base = true -> v < 99 ->
  fs !! shot_directory = Some d ->
  entry (format_name base v) d = Some (File data) ->
  entry (format_name base (v + 1)) d = None ->
  entry (format_name base (v + 2)) d = None ->
  let first := duplicate_shot (format_name base v) shot_directory fs in
  let second := duplicate_shot (format_name base (v + 1)) shot_directory first.2 in
  first.1 = Return (format_name base (v + 1)) /\
  second.1 = Return (format_name base (v + 2)) /\
  second.2 = <[shot_directory := d ++ [(format_name base (v + 1), File data);
                                       (format_name base (v + 2), File data)]]> fs.
Proof.
  intros Hb Hv Hd Hsrc H1 H2 first second.
  assert (Hfirst : first = (Return (format_name base (v + 1)),
            <[shot_directory := d ++ [(format_name base (v + 1), File data)]]> fs)).
  { apply duplicate_shot_ok; try assumption. apply CoreSpec.parse_format_name; [assumption|lia]. }
  assert (Hne : format_name base (v + 1) <> format_name base (v + 2)).
  { intros E. apply format_name_inj in E. lia. }
  assert (Hsecond : second = (Return (format_name base (v + 1 + 1)),
            <[shot_directory := (d ++ [(format_name base (v + 1), File data)])
                                  ++ [(format_name base (v + 1 + 1), File data)]]>
              (<[shot_directory := d ++ [(format_name base (v + 1), File data)]]> fs))).
  { unfold second. rewrite Hfirst. cbn [snd].
    apply duplicate_shot_ok.
    - apply CoreSpec.parse_format_name; [assumption|lia].
    - apply lookup_insert_eq.
    - rewrite entry_app, H1. cbn [entry]. rewrite String.eqb_refl. reflexivity.
    - replace (v + 1 + 1) with (v + 2) by lia. rewrite entry_app, H2. cbn [entry].
      apply String.eqb_neq in Hne. rewrite Hne. reflexivity. }
  rewrite Hfirst, Hsecond. cbn [fst snd].
  replace (v + 1 + 1) with (v + 2) by lia.
  rewrite insert_insert_eq, <- app_assoc. auto.
Qed.

Lemma duplicate_shot_twice_witness :
  (duplicate_shot "a_v08.blend" "shots" {[ "shots" := [("a_v08.blend", File [x01])] ]}).1
    = Return (format_name "a" (8 + 1)) /\
  (duplicate_shot (format_name "a" (8 + 1)) "shots"
     (duplicate_shot "a_v08.blend" "shots"
        {[ "shots" := [("a_v08.blend", File [x01])] ]}).2).1
    = Return (format_name "a" (8 + 2)).
Proof.
  pose proof (duplicate_shot_twice "a" 8 "shots"
    {[ "shots" := [("a_v08.blend", File [x01])] ]} [("a_v08.blend", File [x01])] [x01]
    eq_refl eq_refl eq_refl eq_refl eq_refl eq_refl) as (H1 & H2 & _).
  split; [exact H1 | exact H2].
Defined.

(** ** delete_shot *)

(** X6: deleting a shot file that exists returns normally, removes
    that entry and nothing else, and a second deletion of the same
    name raises [FileNotFoundError]. *)
Theorem delete_shot_removes (filename shot_directory : string) (fs : filesystem)
    (d : directory) (data : list byte) :
  fs !! shot_directory = Some d ->
  entry filename d = Some (File data) ->
  let deleted := delete_shot filename shot_directory fs in
  deleted = (Return tt, <[shot_directory := remove_entry filename d]> fs) /\
  exists_in shot_directory filename deleted.2 = false /\
  (forall name, name <> filename ->
     entry name (remove_entry filename d) = entry name d) /\
  delete_shot filename shot_directory deleted.2 = (Raise FileNotFoundError, deleted.2).
Proof.
  intros Hd He deleted.
  assert (Hdel : deleted = (Return tt, <[shot_directory := remove_entry filename d]> fs)).
  { unfold deleted, delete_shot. rewrite (exists_in_lookup _ _ _ _ Hd), He.
    rewrite bool_decide_eq_true_2 by eauto. cbn [negb].
    unfold remove. rewrite Hd, He. reflexivity. }
  assert (Hgone : exists_in shot_directory filename deleted.2 = false).
  { rewrite Hdel. cbn [snd]. unfold exists_in. rewrite lookup_insert_eq.
    rewrite entry_remove_entry_eq. apply bool_decide_eq_false_2. intros [x Hx]. discriminate. }
  split; [exact Hdel|]. split; [exact Hgone|]. split.
  - intros name Hne. apply entry_remove_entry_ne. congruence.
  - unfold delete_shot. rewrite Hgone. reflexivity.
Qed.

Lemma delete_shot_removes_witness :
  delete_shot "a_v01.blend" "shots"
    {[ "shots" := [("a_v01.blend", File []); ("a_v02.blend", File [x01])] ]}
  = (Return tt,
     <["shots" := remove_entry "a_v01.blend"
                    [("a_v01.blend", File []); ("a_v02.blend", File [x01])]]>
       {[ "shots" := [("a_v01.blend", File []); ("a_v02.blend", File [x01])] ]}).
Proof.
  apply (delete_shot_removes "a_v01.blend" "shots"
    {[ "shots" := [("a_v01.blend", File []); ("a_v02.blend", File [x01])] ]}
    [("a_v01.blend", File []); ("a_v02.blend", File [x01])] []); reflexivity.
Defined.



(** ** create_new_shot *)




(** ** list_shots *)




Lemma bfilter_Permutation {A : Type} (p : A -> bool) (l1 l2 : list A) :
  l1 ≡ₚ l2 -> List.filter p l1 ≡ₚ List.filter p l2.
Proof.
  induction 1 as [|x l1 l2 _ IH|x y l|l1 l2 l3 _ IH1 _ IH2]; cbn [List.filter].
  - reflexivity.
  - destruct (p x); [constructor|]; exact IH.
  - destruct (p x), (p y); try reflexivity. constructor.
  - etransitivity; eassumption.
Qed.

(** X10: the listing depends on the names in the directory only, not
    on the order in which the directory enumerates them, nor on what
    the entries hold. *)
Theorem list_shots_any_order (shot_directory : string) (fs1 fs2 : filesystem)
    (d1 d2 : directory) :
  fs1 !! shot_directory = Some d1 -> fs2 !! shot_directory = Some d2 ->
  listdir d1 ≡ₚ listdir d2 ->
  list_shots shot_directory fs1 = list_shots shot_directory fs2.
Proof.
  intros H1 H2 Hp. unfold list_shots, sorted. rewrite H1, H2.
  apply (StronglySorted_unique String.le).
  - apply StronglySorted_merge_sort; apply _.
  - apply StronglySorted_merge_sort; apply _.
  - rewrite !merge_sort_Permutation. apply bfilter_Permutation. exact Hp.
Qed.

Lemma list_shots_any_order_witness :
  list_shots "shots" {[ "shots" := [("b.blend", File []); ("a.blend", Directory)] ]}
  = list_shots "shots" {[ "shots" := [("a.blend", File [x01]); ("b.blend", File [])] ]}.
Proof.
  apply (list_shots_any_order "shots" _ _
           [("b.blend", File []); ("a.blend", Directory)]
           [("a.blend", File [x01]); ("b.blend", File [])]);
    [reflexivity | reflexivity | apply Permutation_swap].
Defined.

(** ** create_new_shot_from_template *)






(** ** No operation overwrites a file *)

Lemma create_new_shot_keeps (base_name shot_directory : string) (fs : filesystem)
    (directory' name : string) (data : list byte) :
  read_file directory' name fs = Some data ->
  read_file directory' name (create_new_shot base_name shot_directory fs).2 = Some data.
Proof.
  intros Hr. unfold create_new_shot. cbv zeta.
  destruct (exists_in shot_directory _ (makedirs shot_directory fs)) eqn:Hex;
    [cbn [snd]; rewrite read_file_makedirs; exact Hr|].
  destruct (write_file _ _ _ _) as [fs'|] eqn:Hw;
    [|cbn [snd]; rewrite read_file_makedirs; exact Hr].
  cbn [snd]. apply write_file_inv in Hw as (d & Hd & _ & ->).
  pose proof (exists_in_false _ _ _ _ Hd Hex) as Hfree.
  rewrite set_entry_fresh by assumption.
  apply read_file_add; try assumption. rewrite read_file_makedirs. exact Hr.
Qed.

Lemma create_from_template_keeps (base_name template_label : string)
    (template_path : string * string) (shot_directory : string) (fs : filesystem)
    (directory' name : string) (data : list byte) :
  read_file directory' name fs = Some data ->
  read_file directory' name
    (create_new_shot_from_template base_name template_label template_path
       shot_directory fs).2 = Some data.
Proof.
  intros Hr. unfold create_new_shot_from_template. cbv zeta.
  destruct (negb (exists_in template_path.1 template_path.2 (makedirs shot_directory fs)));
    [cbn [snd]; rewrite read_file_makedirs; exact Hr|].
  destruct (exists_in shot_directory _ (makedirs shot_directory fs)) eqn:Hex;
    [cbn [snd]; rewrite read_file_makedirs; exact Hr|].
  unfold copy2_from.
  destruct (read_file template_path.1 _ _) as [tdata|];
    [|cbn [snd]; rewrite read_file_makedirs; exact Hr].
  destruct (write_file _ _ _ _) as [fs'|] eqn:Hw;
    [|cbn [snd]; rewrite read_file_makedirs; exact Hr].
  cbn [snd]. apply write_file_inv in Hw as (d & Hd & _ & ->).
  pose proof (exists_in_false _ _ _ _ Hd Hex) as Hfree.
  rewrite set_entry_fresh by assumption.
  apply read_file_add; try assumption. rewrite read_file_makedirs. exact Hr.
Qed.

Lemma duplicate_shot_keeps (original_filename shot_directory : string) (fs : filesystem)
    (directory' name : string) (data : list byte) :
  read_file directory' name fs = Some data ->
  read_file directory' name (duplicate_shot original_filename shot_directory fs).2
  = Some data.
Proof.
  intros Hr.
  destruct (duplicate_shot original_filename shot_directory fs) as [[new|e] fs'] eqn:E.
  - apply duplicate_shot_inv in E as (b & v & d & sdata & _ & _ & Hd & _ & Hfree & ->).
    cbn [snd]. apply read_file_add; assumption.
  - apply duplicate_shot_raise_inv in E as [-> _]. exact Hr.
Qed.

(** X13: none of [create_new_shot], [create_new_shot_from_template]
    and [duplicate_shot] ever changes or removes a file that was
    there: whatever they do, every file of every directory reads as
    before. *)
Theorem core_never_overwrites (fs : filesystem) (directory' name : string)
    (data : list byte) :
  read_file directory' name fs = Some data ->
  (forall base_name shot_directory,
     read_file directory' name (create_new_shot base_name shot_directory fs).2
     = Some data) /\
  (forall base_name template_label template_path shot_directory,
     read_file directory' name
       (create_new_shot_from_template base_name template_label template_path
          shot_directory fs).2 = Some data) /\
  (forall original_filename shot_directory,
     read_file directory' name (duplicate_shot original_filename shot_directory fs).2
     = Some data).
Proof.
  intros Hr. split; [|split]; intros.
  - apply create_new_shot_keeps; exact Hr.
  - apply create_from_template_keeps; exact Hr.
  - apply duplicate_shot_keeps; exact Hr.
Qed.

Lemma core_never_overwrites_witness :
  read_file "shots" "a_v01.blend"
    (duplicate_shot "a_v01.blend" "shots" {[ "shots" := [("a_v01.blend", File [x07])] ]}).2
  = Some [x07].
Proof.
  refine (proj2 (proj2 (core_never_overwrites
            {[ "shots" := [("a_v01.blend", File [x07])] ]}
            "shots" "a_v01.blend" [x07] _)) "a_v01.blend" "shots").
  vm_compute. reflexivity.
Defined.

End CoreMore.

(** * Further properties of the custom metadata *)

Module MetaMore.
Import Str StrFacts Fs FsFacts FsMore Core CoreTemplate Gui GuiActions.

Lemma join_longer (a b : string) :
  b <> "" -> (String.length a < String.length (join a b))%nat.
Proof.
  intros Hb. unfold join. destruct (String.eqb a "") eqn:Ea.
  - apply String.eqb_eq in Ea. subst a. destruct b; [congruence|]. simpl. lia.
  - destruct (endswith a "/"); rewrite ?sapp_length; destruct b; try congruence;
      cbn [String.length]; lia.
Qed.

(** The metadata directory is not the shot directory. *)
Lemma meta_dir_ne (shot_directory : string) :
  join shot_directory CUSTOM_METADATA_SUBDIR <> shot_directory.
Proof.
  intros E. pose proof (join_longer shot_directory CUSTOM_METADATA_SUBDIR) as H.
  rewrite E in H. assert (CUSTOM_METADATA_SUBDIR <> "") by discriminate. intuition lia.
Qed.


Lemma last_dot_blend (s : string) : last_dot (s +:+ ".blend") = Some (s, ".blend").
Proof.
  induction s as [|c s IH]; [reflexivity|].
  rewrite sapp_cons. cbn [last_dot]. rewrite IH. reflexivity.
Qed.

(** X14: the metadata of the shot [<s>.blend] is the file [<s>.json]
    of the metadata directory, unless [s] is made of dots only (the
    empty [s] too): then the whole name is kept and the file is
    [<s>.blend.json]. *)
Theorem metadata_path_of_shot (shot_directory s : string) :
  _get_custom_metadata_path shot_directory (s +:+ ".blend")
  = (join shot_directory "_custom_meta",
     if all_dots s then s +:+ ".blend.json" else s +:+ ".json").
Proof.
  unfold _get_custom_metadata_path, splitext_root. rewrite last_dot_blend.
  destruct (all_dots s); [|reflexivity]. rewrite sapp_assoc. reflexivity.
Qed.

(** X15: without a metadata file, loading returns the empty record
    and no error, and the edit window opens on the defaults: status
    [WIP] and three empty fields. *)
Theorem load_without_file (json_load : list byte -> option record)
    (shot_directory filename : string) (fs : filesystem) :
  exists_in (join shot_directory CUSTOM_METADATA_SUBDIR)
            (splitext_root filename +:+ ".json") fs = false ->
  filename <> "" ->
  _load_custom_metadata json_load shot_directory filename fs = ∅ /\
  edit_custom_metadata_for_selected json_load shot_directory (Some filename) fs
  = EditWindow "WIP" "" "" "".
Proof.
  intros Hex Hne.
  assert (Hl : _load_custom_metadata json_load shot_directory filename fs = ∅).
  { unfold _load_custom_metadata, _get_custom_metadata_path. rewrite Hex. reflexivity. }
  split; [exact Hl|]. unfold edit_custom_metadata_for_selected.
  destruct filename; [congruence|]. rewrite Hl. reflexivity.
Qed.

Lemma load_without_file_witness :
  _load_custom_metadata JsonText.json_load "shots" "a_v01.blend" ∅ = ∅ /\
  edit_custom_metadata_for_selected JsonText.json_load "shots" (Some "a_v01.blend") ∅
  = EditWindow "WIP" "" "" "".
Proof.
  apply (load_without_file JsonText.json_load "shots" "a_v01.blend" ∅);
    [reflexivity | discriminate].
Defined.

(** X16: saving fails exactly when the metadata directory is missing
    or the name of the metadata file is that of a directory; it then
    changes nothing, and in particular does not make the directory. *)
Theorem save_fails (json_dump : record -> list byte) (shot_directory filename : string)
    (data : record) (fs : filesystem) :
  ((_save_custom_metadata json_dump shot_directory filename data fs).1 = false <->
   fs !! join shot_directory CUSTOM_METADATA_SUBDIR = None \/
   exists d, fs !! join shot_directory CUSTOM_METADATA_SUBDIR = Some d /\
             entry (splitext_root filename +:+ ".json") d = Some Directory) /\
  ((_save_custom_metadata json_dump shot_directory filename data fs).1 = false ->
   (_save_custom_metadata json_dump shot_directory filename data fs).2 = fs).
Proof.
  unfold _save_custom_metadata, _get_custom_metadata_path, write_file.
  destruct (fs !! join shot_directory CUSTOM_METADATA_SUBDIR) as [d|] eqn:Hd.
  - destruct (entry (splitext_root filename +:+ ".json") d) as [[|]|] eqn:He; cbn [fst snd].
    + split; [|discriminate]. split; [discriminate|].
      intros [H | (d' & [= <-] & H)]; congruence.
    + split; [|reflexivity]. split; [eauto|reflexivity].
    + split; [|discriminate]. split; [discriminate|].
      intros [H | (d' & [= <-] & H)]; congruence.
  - cbn [fst snd]. split; [|reflexivity]. split; [auto|reflexivity].
Qed.

(** Deleting the metadata file that a save has written. *)
Lemma delete_saved (json_dump : record -> list byte) (json_load : list byte -> option record)
    (shot_directory filename : string) (data : record) (fs : filesystem) :
  (_save_custom_metadata json_dump shot_directory filename data fs).1 = true ->
  let saved := (_save_custom_metadata json_dump shot_directory filename data fs).2 in
  (_delete_custom_metadata shot_directory filename saved).1 = true /\
  exists_in (join shot_directory CUSTOM_METADATA_SUBDIR)
    (splitext_root filename +:+ ".json")
    (_delete_custom_metadata shot_directory filename saved).2 = false.
Proof.
  intros Hs saved. destruct (GuiSpec.save_writes json_dump _ _ _ _ Hs) as [Hex Hr].
  fold saved in Hex, Hr.
  unfold _delete_custom_metadata, _get_custom_metadata_path. rewrite Hex.
  apply read_file_inv in Hr as (d & Hd & He). unfold remove. rewrite Hd, He. cbn [fst snd].
  split; [reflexivity|]. unfold exists_in. rewrite lookup_insert_eq, entry_remove_entry_eq.
  apply bool_decide_eq_false_2. intros [x Hx]. discriminate.
Qed.

(** X17: after a successful save, [_delete_custom_metadata] returns
    [True] and the record is gone: loading returns the empty record
    and a second deletion returns [False] and changes nothing. *)
Theorem delete_metadata_after_save (json_dump : record -> list byte)
    (json_load : list byte -> option record)
    (shot_directory filename : string) (data : record) (fs : filesystem) :
  (_save_custom_metadata json_dump shot_directory filename data fs).1 = true ->
  let saved := (_save_custom_metadata json_dump shot_directory filename data fs).2 in
  let deleted := _delete_custom_metadata shot_directory filename saved in
  deleted.1 = true /\
  _load_custom_metadata json_load shot_directory filename deleted.2 = ∅ /\
  _delete_custom_metadata shot_directory filename deleted.2 = (false, deleted.2).
Proof.
  intros Hs saved deleted.
  destruct (delete_saved json_dump json_load _ _ _ _ Hs) as [Hd Hex].
  fold saved in Hd, Hex. fold deleted in Hd, Hex.
  split; [exact Hd|]. split.
  - unfold _load_custom_metadata, _get_custom_metadata_path. rewrite Hex. reflexivity.
  - unfold _delete_custom_metadata at 1. unfold _get_custom_metadata_path.
    rewrite Hex. reflexivity.
Qed.

Lemma delete_metadata_after_save_witness :
  (_delete_custom_metadata "camera_shots" "SHOT_010_v01.blend"
     (_save_custom_metadata JsonText.json_dump "camera_shots" "SHOT_010_v01.blend"
        Samples.full_record Samples.meta_fs).2).1 = true.
Proof.
  apply (delete_metadata_after_save JsonText.json_dump JsonText.json_load
           "camera_shots" "SHOT_010_v01.blend" Samples.full_record Samples.meta_fs).
  vm_compute. reflexivity.
Defined.


Section Json.

Variable json_dump : record -> list byte.
Variable json_load : list byte -> option record.
Hypothesis json_load_dump : forall data : record, json_load (json_dump data) = Some data.

(** X19: a save overwrites and does not merge: after two successful
    saves under one file name, loading returns the second record,
    fields of the first included only if the second has them. *)
Theorem save_overwrites (shot_directory filename : string) (R1 R2 : record)
    (fs : filesystem) :
  (_save_custom_metadata json_dump shot_directory filename R1 fs).1 = true ->
  let fs1 := (_save_custom_metadata json_dump shot_directory filename R1 fs).2 in
  (_save_custom_metadata json_dump shot_directory filename R2 fs1).1 = true /\
  _load_custom_metadata json_load shot_directory filename
    (_save_custom_metadata json_dump shot_directory filename R2 fs1).2 = R2.
Proof.
  intros H1 fs1.
  assert (H2 : (_save_custom_metadata json_dump shot_directory filename R2 fs1).1 = true).
  { destruct (GuiSpec.save_writes json_dump _ _ _ _ H1) as [_ Hr]. fold fs1 in Hr.
    apply read_file_inv in Hr as (d & Hd & He).
    apply (GuiSpec.save_succeeds json_dump _ _ _ _ d Hd). congruence. }
  split; [exact H2|]. apply GuiSpec.load_saved; assumption.
Qed.

(** X20: metadata is keyed by the file name without its extension:
    after a successful save under one file name, a file name with the
    same root loads the record saved, and a file name with another
    root loads what it loaded before. *)
Theorem metadata_keyed_by_root (shot_directory filename1 filename2 : string) (R : record)
    (fs : filesystem) :
  (_save_custom_metadata json_dump shot_directory filename1 R fs).1 = true ->
  let fs' := (_save_custom_metadata json_dump shot_directory filename1 R fs).2 in
  (splitext_root filename1 = splitext_root filename2 ->
   _load_custom_metadata json_load shot_directory filename2 fs' = R) /\
  (splitext_root filename1 <> splitext_root filename2 ->
   _load_custom_metadata json_load shot_directory filename2 fs'
   = _load_custom_metadata json_load shot_directory filename2 fs).
Proof.
  intros Hs fs'. split.
  - intros Hroot. destruct (GuiSpec.save_writes json_dump _ _ _ _ Hs) as [Hex Hr].
    fold fs' in Hex, Hr. unfold _load_custom_metadata, _get_custom_metadata_path.
    rewrite <- Hroot, Hex, Hr, json_load_dump. reflexivity.
  - intros Hroot. unfold fs', _save_custom_metadata, _get_custom_metadata_path in *.
    destruct (write_file _ _ _ fs) as [fs1|] eqn:Hw; [|discriminate].
    cbn [snd]. apply write_file_inv in Hw as (d & Hd & _ & ->).
    unfold _load_custom_metadata, _get_custom_metadata_path, exists_in, read_file.
    rewrite lookup_insert_eq, Hd. rewrite entry_set_entry_ne; [reflexivity|].
    intros E. apply sapp_inj_tail in E as [E _]; [|reflexivity]. contradiction.
Qed.

End Json.

Lemma save_overwrites_witness :
  _load_custom_metadata JsonText.json_load "camera_shots" "SHOT_010_v01.blend"
    (_save_custom_metadata JsonText.json_dump "camera_shots" "SHOT_010_v01.blend"
       {[ "status" := "Final" ]}
       (_save_custom_metadata JsonText.json_dump "camera_shots" "SHOT_010_v01.blend"
          Samples.full_record Samples.meta_fs).2).2
  = {[ "status" := "Final" ]}.
Proof.
  apply (save_overwrites JsonText.json_dump JsonText.json_load JsonFacts.json_load_dump
           "camera_shots" "SHOT_010_v01.blend" Samples.full_record {[ "status" := "Final" ]}
           Samples.meta_fs).
  vm_compute. reflexivity.
Defined.

Lemma metadata_keyed_by_root_witness :
  _load_custom_metadata JsonText.json_load "camera_shots" "SHOT_010_v01.txt"
    (_save_custom_metadata JsonText.json_dump "camera_shots" "SHOT_010_v01.blend"
       Samples.full_record Samples.meta_fs).2
  = Samples.full_record.
Proof.
  apply (metadata_keyed_by_root JsonText.json_dump JsonText.json_load
           JsonFacts.json_load_dump "camera_shots" "SHOT_010_v01.blend" "SHOT_010_v01.txt"
           Samples.full_record Samples.meta_fs);
    vm_compute; reflexivity.
Defined.

End MetaMore.

(** * Properties of the actions of the window *)

Module ActionsSpec.
Import Str StrFacts StrMore Pattern PatternFacts Fs FsFacts FsMore Core CoreTemplate.
Import Gui GuiActions Notions.

(** ** duplicate_selected *)

(** X21: [duplicate_selected] never shows the warning [Duplication
    Error] it has a handler for: it has checked the name against the
    pattern before the call, so [duplicate_shot] cannot raise
    [ValueError].  When it shows a message box the file system is
    untouched, and when it shows none [duplicate_shot] has returned. *)
Theorem duplicate_selected_boxes (shot_directory : string) (selected : option string)
    (fs : filesystem) :
  let done := duplicate_selected shot_directory selected fs in
  done.1 <> Some (showwarning "Duplication Error") /\
  (is_Some done.1 -> done.2 = fs) /\
  (done.1 = None ->
   exists selected_filename new,
     selected = Some selected_filename /\
     duplicate_shot selected_filename shot_directory fs = (Return new, done.2)).
Proof.
  unfold duplicate_selected. destruct selected as [[|c f]|];
    [cbn; split; [discriminate|split; [reflexivity|discriminate]] | |
     cbn; split; [discriminate|split; [reflexivity|discriminate]]].
  destruct (re_match (String c f)) as [g|] eqn:Hm;
    [|cbn; split; [discriminate|split; [reflexivity|discriminate]]].
  destruct (duplicate_shot (String c f) shot_directory fs) as [[new|e] fs'] eqn:E.
  - cbn. split; [discriminate|]. split; [intros [x Hx]; discriminate|]. eauto.
  - apply CoreMore.duplicate_shot_raise_inv in E as [-> He].
    destruct e; cbn; try (split; [discriminate|split; [reflexivity|discriminate]]).
    congruence.
Qed.

(** ** delete_selected *)

Lemma delete_metadata_gone (shot_directory filename : string) (fs : filesystem) :
  entry (splitext_root filename +:+ ".json")
        (default [] (fs !! join shot_directory CUSTOM_METADATA_SUBDIR)) <> Some Directory ->
  exists_in (join shot_directory CUSTOM_METADATA_SUBDIR) (splitext_root filename +:+ ".json")
    (_delete_custom_metadata shot_directory filename fs).2 = false.
Proof.
  intros Hn. unfold _delete_custom_metadata, _get_custom_metadata_path.
  destruct (exists_in _ _ fs) eqn:Hex; [|exact Hex].
  apply exists_in_true in Hex as (d & x & Hd & Hx). unfold remove. rewrite Hd, Hx.
  unfold directory in *. rewrite Hd in Hn. change (default [] (Some d)) with d in Hn.
  destruct x as [data|]; [|congruence]. cbn [snd].
  unfold exists_in. rewrite lookup_insert_eq, entry_remove_entry_eq.
  apply bool_decide_eq_false_2. intros [x Hx']. discriminate.
Qed.

Lemma delete_metadata_other (shot_directory filename other : string) (fs : filesystem) :
  other <> join shot_directory CUSTOM_METADATA_SUBDIR ->
  (_delete_custom_metadata shot_directory filename fs).2 !! other = fs !! other.
Proof.
  intros Hne. unfold _delete_custom_metadata, _get_custom_metadata_path.
  destruct (exists_in _ _ fs); [|reflexivity]. unfold remove.
  destruct (fs !! join shot_directory CUSTOM_METADATA_SUBDIR) as [d|]; [|reflexivity].
  destruct (entry _ d) as [[|]|]; cbn [snd]; try reflexivity.
  rewrite lookup_insert_ne by congruence. reflexivity.
Qed.

(** X22: a confirmed [delete_selected] on a shot file that exists
    shows no message box and removes both the shot file and its
    metadata (unless a directory stands where the metadata file would
    be): the name no longer exists and loads the empty record. *)
Theorem delete_selected_removes (json_load : list byte -> option record)
    (shot_directory selected : string) (fs : filesystem) (d : directory)
    (data : list byte) :
  selected <> "" ->
  fs !! shot_directory = Some d ->
  entry selected d = Some (File data) ->
  entry (splitext_root selected +:+ ".json")
        (default [] (fs !! join shot_directory CUSTOM_METADATA_SUBDIR)) <> Some Directory ->
  let done := delete_selected shot_directory (Some selected) true fs in
  done.1 = None /\
  exists_in shot_directory selected done.2 = false /\
  _load_custom_metadata json_load shot_directory selected done.2 = ∅.
Proof.
  intros Hne Hd He Hmeta done.
  pose proof (meta_dir_ne := MetaMore.meta_dir_ne shot_directory).
  assert (Hdel : delete_shot selected shot_directory fs
                 = (Return tt, <[shot_directory := remove_entry selected d]> fs)).
  { unfold delete_shot. rewrite (exists_in_lookup _ _ _ _ Hd), He.
    rewrite bool_decide_eq_true_2 by eauto. cbn [negb].
    unfold remove. rewrite Hd, He. reflexivity. }
  assert (Hdone : done = (None, (_delete_custom_metadata shot_directory selected
                    (<[shot_directory := remove_entry selected d]> fs)).2)).
  { unfold done, delete_selected. destruct selected; [congruence|]. rewrite Hdel. reflexivity. }
  rewrite Hdone. cbn [fst snd]. split; [reflexivity|]. split.
  - unfold exists_in. rewrite delete_metadata_other by congruence.
    rewrite lookup_insert_eq, entry_remove_entry_eq.
    apply bool_decide_eq_false_2. intros [x Hx]. discriminate.
  - unfold _load_custom_metadata, _get_custom_metadata_path.
    rewrite delete_metadata_gone; [reflexivity|].
    rewrite lookup_insert_ne by congruence. exact Hmeta.
Qed.

Lemma delete_selected_removes_witness :
  (delete_selected "shots" (Some "a_v01.blend") true
     {[ "shots" := [("a_v01.blend", File [])];
        "shots/_custom_meta" := [("a_v01.json", File [x7b; x7d])] ]}).1 = None /\
  exists_in "shots" "a_v01.blend"
    (delete_selected "shots" (Some "a_v01.blend") true
       {[ "shots" := [("a_v01.blend", File [])];
          "shots/_custom_meta" := [("a_v01.json", File [x7b; x7d])] ]}).2 = false /\
  _load_custom_metadata JsonText.json_load "shots" "a_v01.blend"
    (delete_selected "shots" (Some "a_v01.blend") true
       {[ "shots" := [("a_v01.blend", File [])];
          "shots/_custom_meta" := [("a_v01.json", File [x7b; x7d])] ]}).2 = ∅.
Proof.
  apply (delete_selected_removes JsonText.json_load "shots" "a_v01.blend"
           {[ "shots" := [("a_v01.blend", File [])];
              "shots/_custom_meta" := [("a_v01.json", File [x7b; x7d])] ]}
           [("a_v01.blend", File [])] []);
    [discriminate | vm_compute; reflexivity | reflexivity | vm_compute; discriminate].
Defined.

(** X23: when the selected shot file does not exist, a confirmed
    [delete_selected] shows an error and leaves the file system as it
    is: the metadata of that name is not deleted and loads as
    before.  Without confirmation nothing changes either. *)
Theorem delete_selected_missing (json_load : list byte -> option record)
    (shot_directory selected : string) (fs : filesystem) :
  selected <> "" ->
  exists_in shot_directory selected fs = false ->
  delete_selected shot_directory (Some selected) true fs = (Some (showerror "Error"), fs) /\
  delete_selected shot_directory (Some selected) false fs = (None, fs) /\
  _load_custom_metadata json_load shot_directory selected
    (delete_selected shot_directory (Some selected) true fs).2
  = _load_custom_metadata json_load shot_directory selected fs.
Proof.
  intros Hne Hex.
  assert (H : delete_selected shot_directory (Some selected) true fs
              = (Some (showerror "Error"), fs)).
  { unfold delete_selected, delete_shot. destruct selected; [congruence|].
    rewrite Hex. reflexivity. }
  split; [exact H|]. split; [destruct selected; [congruence|reflexivity]|].
  rewrite H. reflexivity.
Qed.

Lemma delete_selected_missing_witness :
  delete_selected "shots" (Some "a_v01.blend") true
    {[ "shots/_custom_meta" := [("a_v01.json", File [x7b; x7d])] ]}
  = (Some (showerror "Error"),
     {[ "shots/_custom_meta" := [("a_v01.json", File [x7b; x7d])] ]}).
Proof.
  apply (delete_selected_missing JsonText.json_load "shots" "a_v01.blend"
           {[ "shots/_custom_meta" := [("a_v01.json", File [x7b; x7d])] ]});
    [discriminate | reflexivity].
Defined.

(** ** on_create *)

Lemma rstrip_idem (s : string) : rstrip (rstrip s) = rstrip s.
Proof.
  induction s as [|c s IH]; [reflexivity|]. cbn [rstrip].
  destruct (rstrip s) as [|c' r] eqn:E.
  - destruct (is_space c) eqn:Ec; [reflexivity|]. cbn [rstrip]. rewrite Ec. reflexivity.
  - change (rstrip (String c (String c' r)))
      with (match rstrip (String c' r) with
            | EmptyString => if is_space c then EmptyString else String c EmptyString
            | String a r0 => String c (String a r0)
            end).
    rewrite IH. reflexivity.
Qed.

(** On a string without white space at its end the pattern of
    [on_create] matches exactly the non-empty strings of letters,
    digits and underscores. *)
Lemma re_match_name_stripped (t : string) :
  rstrip t = t -> re_match_name t = all_word t && negb (String.eqb t "").
Proof.
  induction t as [|c t IH]; [reflexivity|]. cbn [rstrip re_match_name all_word].
  destruct (rstrip t) as [|c' r] eqn:E.
  - destruct (is_space c); [discriminate|]. intros [= <-]. cbn.
    rewrite !andb_true_r. reflexivity.
  - intros [= Ht]. rewrite <- Ht in IH at 1. specialize (IH eq_refl).
    rewrite IH. rewrite <- Ht. cbn [String.eqb negb]. rewrite !andb_true_r.
    assert (Hend : at_end (String c' r) = false).
    { unfold at_end. cbn [String.eqb orb].
      destruct (Ascii.eqb c' LF) eqn:Ec; [|reflexivity].
      destruct r; [|reflexivity]. apply Ascii.eqb_eq in Ec. subst c'.
      rewrite <- Ht in E. cbn in E. discriminate. }
    rewrite Hend, orb_false_r. reflexivity.
Qed.

Lemma re_match_name_strip (s : string) :
  re_match_name (strip s) = all_word (strip s) && negb (String.eqb (strip s) "").
Proof. apply re_match_name_stripped. unfold strip. apply rstrip_idem. Qed.

Lemma all_word_single_line (s : string) : all_word s = true -> single_line s = true.
Proof.
  induction s as [|c s IH]; [reflexivity|]. cbn [all_word single_line].
  intros H. apply andb_prop in H as [Hc Hs]. rewrite (IH Hs), andb_true_r.
  destruct (Ascii.eqb c LF) eqn:E; [|reflexivity].
  apply Ascii.eqb_eq in E. subst c. discriminate.
Qed.

(** X24: when [on_create] ends without a message box, the name
    entered, stripped, is a non-empty string of letters, digits and
    underscores; the shot [<name>_v01.blend] holds the bytes of the
    chosen template and its name parses to that name and version 1,
    so that it can be duplicated. *)
Theorem on_create_creates (shot_directory name_var : string) (template_var : template)
    (fs fs' : filesystem) :
  on_create shot_directory name_var template_var fs = (None, fs') ->
  let base_name := strip name_var in
  all_word base_name = true /\ base_name <> "" /\
  parse (base_name +:+ "_v01.blend") = Some (base_name, 1) /\
  exists data,
    read_file (join shot_directory "templates") (templates template_var).2 fs = Some data /\
    read_file shot_directory (base_name +:+ "_v01.blend") fs' = Some data.
Proof.
  unfold on_create. cbv zeta. rewrite re_match_name_strip.
  destruct (all_word (strip name_var)) eqn:Hw; [|discriminate].
  destruct (String.eqb (strip name_var) "") eqn:He; [discriminate|]. cbn [andb negb].
  destruct (templates template_var) as [template_label template_filename]. cbn [fst snd].
  destruct (exists_in _ template_filename fs) eqn:Hex; [|discriminate]. cbn [negb].
  destruct (create_new_shot_from_template _ _ _ _ fs) as [[new|e] fs1] eqn:E; [|discriminate].
  intros [= <-]. split; [reflexivity|]. split; [apply String.eqb_neq; exact He|]. split.
  - change (strip name_var +:+ "_v01.blend")
      with (strip name_var +:+ "_v" +:+ two "0" "1" +:+ ".blend").
    unfold parse. rewrite re_match_format by auto using all_word_single_line. reflexivity.
  - unfold create_new_shot_from_template in E. cbv zeta in E. cbn [fst snd] in E.
    rewrite exists_in_makedirs, Hex in E. cbn [negb] in E.
    destruct (exists_in shot_directory _ (makedirs shot_directory fs)) eqn:Hfree;
      [discriminate|].
    unfold copy2_from in E. rewrite read_file_makedirs in E.
    destruct (read_file _ template_filename fs) as [data|] eqn:Hr; [|discriminate].
    destruct (write_file _ _ _ _) as [fs2|] eqn:Hwf; [|discriminate].
    injection E as <- <-. exists data. split; [reflexivity|].
    apply write_file_inv in Hwf as (d & Hd & _ & ->).
    unfold read_file. rewrite lookup_insert_eq, entry_set_entry_eq. reflexivity.
Qed.

Lemma on_create_creates_witness :
  all_word (strip " SHOT_030 ") = true /\ strip " SHOT_030 " <> "" /\
  parse (strip " SHOT_030 " +:+ "_v01.blend") = Some (strip " SHOT_030 ", 1) /\
  exists data,
    read_file (join "shots" "templates") (templates Layout).2
      {[ "shots/templates" := [("cam_template_layout.blend", File [x01])] ]} = Some data /\
    read_file "shots" (strip " SHOT_030 " +:+ "_v01.blend")
      {[ "shots" := [("SHOT_030_v01.blend", File [x01])];
         "shots/templates" := [("cam_template_layout.blend", File [x01])] ]} = Some data.
Proof.
  apply (on_create_creates "shots" " SHOT_030 " Layout
           {[ "shots/templates" := [("cam_template_layout.blend", File [x01])] ]}).
  vm_compute. reflexivity.
Defined.

(** X25: [on_create] refuses, with the warning [Invalid Name] and
    without touching the file system, exactly the entries whose
    stripped text is empty or has a character that is no letter, digit
    or underscore. *)
Theorem on_create_refuses (shot_directory name_var : string) (template_var : template)
    (fs : filesystem) :
  (on_create shot_directory name_var template_var fs).1 = Some (showwarning "Invalid Name")
  <-> all_word (strip name_var) = false \/ strip name_var = "".
Proof.
  unfold on_create. cbv zeta. rewrite re_match_name_strip.
  destruct (all_word (strip name_var)) eqn:Hw; cbn [andb negb].
  - destruct (String.eqb (strip name_var) "") eqn:He; cbn [negb fst].
    + apply String.eqb_eq in He. split; auto.
    + apply String.eqb_neq in He.
      destruct (templates template_var) as [l t]. cbn [fst snd].
      destruct (negb (exists_in _ t fs));
        [cbn; split; [discriminate|intros [H|H]; congruence]|].
      destruct (create_new_shot_from_template _ _ _ _ fs) as [[new|e] fs1]; cbn;
        (split; [discriminate|intros [H|H]; congruence]).
  - cbn. split; auto.
Qed.

End ActionsSpec.

(** * Properties of the sorting of the list box *)

Module SortSpec.
Import Str StrFacts StrMore NumFacts Fs Core Gui SortFiles Notions.

Section StableSort.

Context {A K : Type} (le : K -> K -> bool) (key : A -> K).
Hypothesis le_total : forall a b, le a b = true \/ le b a = true.
Hypothesis le_trans : forall a b c, le a b = true -> le b c = true -> le a c = true.

Lemma insert_by_Permutation (x : A) (l : list A) : insert_by le key x l ≡ₚ x :: l.
Proof.
  induction l as [|y l IH]; cbn [insert_by]; [reflexivity|].
  destruct (le (key x) (key y)); [reflexivity|].
  rewrite IH. apply Permutation_swap.
Qed.

Lemma sort_by_Permutation (l : list A) : sort_by le key l ≡ₚ l.
Proof.
  induction l as [|x l IH]; [reflexivity|].
  cbn [sort_by foldr]. fold (sort_by le key l).
  rewrite insert_by_Permutation, IH. reflexivity.
Qed.

Lemma insert_by_sorted (x : A) (l : list A) :
  StronglySorted (before le key) l -> StronglySorted (before le key) (insert_by le key x l).
Proof.
  induction 1 as [|y l Hs IH Hy]; cbn [insert_by]; [repeat constructor|].
  destruct (le (key x) (key y)) eqn:E.
  - constructor; [constructor; assumption|]. constructor; [exact E|].
    eapply Forall_impl; [exact Hy|]. intros z Hz. exact (le_trans _ _ _ E Hz).
  - constructor; [exact IH|]. rewrite insert_by_Permutation. constructor; [|exact Hy].
    destruct (le_total (key x) (key y)) as [H|H]; [congruence|exact H].
Qed.

Lemma sort_by_sorted (l : list A) : StronglySorted (before le key) (sort_by le key l).
Proof.
  induction l as [|x l IH]; [constructor|].
  cbn [sort_by foldr]. apply insert_by_sorted. exact IH.
Qed.

Lemma insert_by_same_key (k : K) (x : A) (l : list A) :
  List.filter (same_key le key k) (insert_by le key x l)
  = if same_key le key k x then x :: List.filter (same_key le key k) l
    else List.filter (same_key le key k) l.
Proof.
  induction l as [|y l IH]; cbn [insert_by List.filter].
  - destruct (same_key le key k x); reflexivity.
  - destruct (le (key x) (key y)) eqn:E; cbn [List.filter]; [reflexivity|].
    rewrite IH. destruct (same_key le key k x) eqn:Ex; [|reflexivity].
    destruct (same_key le key k y) eqn:Ey; [|reflexivity].
    unfold same_key in Ex, Ey. apply andb_prop in Ex as [Hx _]. apply andb_prop in Ey as [_ Hy].
    rewrite (le_trans _ _ _ Hx Hy) in E. discriminate.
Qed.

Lemma sort_by_stable (k : K) (l : list A) :
  List.filter (same_key le key k) (sort_by le key l) = List.filter (same_key le key k) l.
Proof.
  induction l as [|x l IH]; [reflexivity|].
  cbn [sort_by foldr List.filter]. rewrite insert_by_same_key. fold (sort_by le key l).
  rewrite IH. reflexivity.
Qed.

End StableSort.

Lemma Nleb_total (a b : N) : (a <=? b) = true \/ (b <=? a) = true.
Proof. rewrite !N.leb_le. lia. Qed.

Lemma Nleb_trans (a b c : N) : (a <=? b) = true -> (b <=? c) = true -> (a <=? c) = true.
Proof. rewrite !N.leb_le. lia. Qed.

Lemma Qleb_total (a b : QArith_base.Q) :
  QArith_base.Qle_bool a b = true \/ QArith_base.Qle_bool b a = true.
Proof.
  rewrite !QArith_base.Qle_bool_iff.
  destruct (QArith_base.Qlt_le_dec a b) as [H|H]; [left|right; exact H].
  apply QArith_base.Qlt_le_weak. exact H.
Qed.

Lemma Qleb_trans (a b c : QArith_base.Q) :
  QArith_base.Qle_bool a b = true -> QArith_base.Qle_bool b c = true ->
  QArith_base.Qle_bool a c = true.
Proof. rewrite !QArith_base.Qle_bool_iff. apply QArith_base.Qle_trans. Qed.

Lemma Sleb_trans (a b c : string) :
  String.leb a b = true -> String.leb b c = true -> String.leb a c = true.
Proof.
  intros H1 H2. apply Is_true_true. apply Is_true_true in H1, H2.
  exact (@transitivity _ String.le _ a b c H1 H2).
Qed.

Lemma sort_by_stably_sorted {K : Type} (le : K -> K -> bool) (key : string -> K)
    (files : list string) :
  (forall a b, le a b = true \/ le b a = true) ->
  (forall a b c, le a b = true -> le b c = true -> le a c = true) ->
  stably_sorted le key files (sort_by le key files).
Proof.
  intros Ht Htr. split; [apply sort_by_Permutation|]. split.
  - apply sort_by_sorted; assumption.
  - intros k. apply sort_by_stable. exact Htr.
Qed.

Lemma span_digits_app (acc : N) (ds rest : string) (n : N) :
  int_from acc ds = Some n ->
  match rest with String c _ => is_digit c = false | EmptyString => True end ->
  span_digits (ds +:+ rest) = (ds, rest).
Proof.
  revert acc. induction ds as [|c ds IH]; intros acc Hi Hr.
  - rewrite sapp_nil_l. destruct rest as [|c r]; [reflexivity|].
    cbn [span_digits]. rewrite Hr. reflexivity.
  - rewrite sapp_cons. cbn [span_digits int_from] in *.
    destruct (Ascii.is_nat c) as [dv|] eqn:Ec; [|discriminate].
    assert (Hd : is_digit c = true) by (apply is_digit_spec; eauto).
    rewrite Hd, (IH _ Hi Hr). reflexivity.
Qed.

Lemma int_nonempty (s : string) (n : N) : int s = Some n -> String.eqb s "" = false.
Proof. destruct s; [discriminate|reflexivity]. Qed.

Lemma version_suffix_ok (vs : string) (m : N) :
  int vs = Some m -> version_suffix ("_v" +:+ vs +:+ ".blend") = Some "".
Proof.
  intros Hv. unfold version_suffix.
  change (strip_prefix "_v" ("_v" +:+ vs +:+ ".blend")) with (Some (vs +:+ ".blend")).
  cbn [mbind option_bind].
  rewrite (span_digits_app 0 vs ".blend" m (int_Some_from _ _ Hv) eq_refl).
  rewrite (int_nonempty _ _ Hv). reflexivity.
Qed.

Lemma strip_prefix_None (p s : string) :
  String.prefix p s = false -> strip_prefix p s = None.
Proof.
  revert s. induction p as [|a p IH]; intros s; [destruct s; discriminate|].
  destruct s as [|b s]; [reflexivity|]. cbn [String.prefix strip_prefix].
  destruct (ascii_dec a b) as [-> | Hne].
  - rewrite Ascii.eqb_refl. apply IH.
  - apply Ascii.eqb_neq in Hne. rewrite Hne. reflexivity.
Qed.

Lemma re_search_no_SHOT (f : string) :
  contains f "SHOT_" = false -> re_search_shot_number f = None.
Proof.
  induction f as [|c f IH]; cbn [contains re_search_shot_number].
  - reflexivity.
  - destruct (String.prefix "SHOT_" (String c f)) eqn:E; [discriminate|].
    intros Hc. unfold shot_number_at. rewrite (strip_prefix_None _ _ E).
    cbn [mbind option_bind]. apply IH. exact Hc.
Qed.

(** X29: the key of the mode [Shot Number] is the number after
    [SHOT_] for a name [SHOT_<digits>_v<digits>.blend], leading zeros
    dropped, and 0 for every name without [SHOT_] in it, so that such
    names come first. *)
Theorem shot_number_key_values :
  (forall ds vs n m,
     int ds = Some n -> int vs = Some m ->
     shot_number_key ("SHOT_" +:+ ds +:+ "_v" +:+ vs +:+ ".blend") = n) /\
  (forall f, contains f "SHOT_" = false -> shot_number_key f = 0).
Proof.
  split.
  - intros ds vs n m Hn Hm. unfold shot_number_key.
    assert (Hat : shot_number_at ("SHOT_" +:+ ds +:+ "_v" +:+ vs +:+ ".blend") = Some ds).
    { unfold shot_number_at.
      change (strip_prefix "SHOT_" ("SHOT_" +:+ ds +:+ "_v" +:+ vs +:+ ".blend"))
        with (Some (ds +:+ "_v" +:+ vs +:+ ".blend")).
      cbn [mbind option_bind].
      rewrite (span_digits_app 0 ds ("_v" +:+ vs +:+ ".blend") n (int_Some_from _ _ Hn) eq_refl).
      rewrite (int_nonempty _ _ Hn), (version_suffix_ok vs m Hm). reflexivity. }
    destruct ("SHOT_" +:+ ds +:+ "_v" +:+ vs +:+ ".blend") as [|c r] eqn:E;
      cbn [re_search_shot_number]; rewrite Hat, Hn; reflexivity.
  - intros f Hf. unfold shot_number_key. rewrite (re_search_no_SHOT f Hf). reflexivity.
Qed.

Section Stat.

Variable getctime : string -> QArith_base.Q.
Variable getsize : string -> N.

Lemma sort_files_Permutation (files : list string) (sort_type : string) :
  _sort_files getctime getsize files sort_type ≡ₚ files.
Proof.
  unfold _sort_files.
  repeat (destruct (String.eqb sort_type _); [apply sort_by_Permutation|]). reflexivity.
Qed.

(** X26: whatever the mode, [_sort_files] returns the file names it
    was given, each as often as it was given, only reordered; a mode
    it does not know leaves the list as it is. *)
Theorem sort_files_permutes (files : list string) (sort_type : string) :
  _sort_files getctime getsize files sort_type ≡ₚ files /\
  (~ In sort_type ["Alphabetical (A-Z)"; "Date Created (Newest)"; "Date Created (Oldest)";
                   "File Size (Largest)"; "File Size (Smallest)"; "Shot Number"] ->
   _sort_files getctime getsize files sort_type = files).
Proof.
  split; [apply sort_files_Permutation|].
  unfold _sort_files.
  - intros Hn. cbn [In] in Hn.
    repeat match goal with
           | |- context [String.eqb sort_type ?m] =>
               destruct (String.eqb_spec sort_type m); [exfalso; intuition congruence|]
           end.
    reflexivity.
Qed.

(** X27: each mode sorts by its key in its direction and is stable:
    names without the version suffix ascending, creation time
    descending or ascending, size descending or ascending, shot
    number ascending; file names of equal keys keep the order they
    came in. *)
Theorem sort_files_modes (files : list string) :
  stably_sorted String.leb alphabetical_key files
    (_sort_files getctime getsize files "Alphabetical (A-Z)") /\
  stably_sorted (fun a b => QArith_base.Qle_bool b a) getctime files
    (_sort_files getctime getsize files "Date Created (Newest)") /\
  stably_sorted QArith_base.Qle_bool getctime files
    (_sort_files getctime getsize files "Date Created (Oldest)") /\
  stably_sorted (fun a b => N.leb b a) getsize files
    (_sort_files getctime getsize files "File Size (Largest)") /\
  stably_sorted N.leb getsize files
    (_sort_files getctime getsize files "File Size (Smallest)") /\
  stably_sorted N.leb shot_number_key files
    (_sort_files getctime getsize files "Shot Number").
Proof.
  unfold _sort_files. cbn [String.eqb Ascii.eqb Bool.eqb andb].
  repeat split_and; apply sort_by_stably_sorted;
    eauto using Nleb_total, Nleb_trans, Qleb_total, Qleb_trans, Sleb_trans,
      String.leb_total.
Qed.


End Stat.


End SortSpec.

(** * Properties of the configuration *)

Module ConfigSpec.
Import Str Gui Config Notions.


Section Json.

Variable json_dump : record -> list byte.
Variable json_load : list byte -> option record.



End Json.

End ConfigSpec.

(** * The embedding on concrete inputs *)

Module Examples.
Import Str Pattern Fs Core Cli Gui JsonText Samples.

Example re_match_shot : re_match "SHOT_010_v01.blend" = Some ("SHOT_010", "01").
Proof. reflexivity. Qed.

Example re_match_greedy : re_match "a_v01_v02.blend" = Some ("a_v01", "02").
Proof. reflexivity. Qed.

Example re_match_three_digits : re_match "a_v100.blend" = None.
Proof. reflexivity. Qed.

Example re_match_final_line_feed :
  re_match ("a_v10.blend" +:+ String LF "") = Some ("a", "10").
Proof. reflexivity. Qed.

Example re_match_two_lines : re_match ("a" +:+ String LF "b_v10.blend") = None.
Proof. reflexivity. Qed.

Example format_name_7 : format_name "a" 7 = "a_v07.blend".
Proof. vm_compute. reflexivity. Qed.

Example format_name_100 : format_name "a" 100 = "a_v100.blend".
Proof. vm_compute. reflexivity. Qed.

Example int_07 : int "07" = Some 7.
Proof. reflexivity. Qed.

Example lower_mixed : lower "ShOt_Z" = "shot_z".
Proof. reflexivity. Qed.

Example contains_cases :
  contains "hello" "ell" = true /\ contains "hello" "" = true /\
  contains "hello" "lo_" = false.
Proof. repeat split. Qed.

Example endswith_cases :
  endswith "a.blend" ".blend" = true /\ endswith "a.blend1" ".blend" = false.
Proof. repeat split. Qed.

Example list_shots_fs0 : list_shots "shots" fs0 = ["a_v01.blend"; "b_v01.blend"].
Proof. vm_compute. reflexivity. Qed.

Example duplicate_shot_fs0 :
  (duplicate_shot "a_v01.blend" "shots" fs0).1 = Return "a_v02.blend" /\
  list_shots "shots" (duplicate_shot "a_v01.blend" "shots" fs0).2
    = ["a_v01.blend"; "a_v02.blend"; "b_v01.blend"].
Proof. split; vm_compute; reflexivity. Qed.

Example create_new_shot_twice :
  (create_new_shot "a" "shots" fs0).1 = Raise FileExistsError /\
  (create_new_shot "a" "other" fs0).1 = Return "a_v01.blend".
Proof. split; vm_compute; reflexivity. Qed.

Example delete_shot_twice :
  (delete_shot "a_v01.blend" "shots" fs0).1 = Return tt /\
  (delete_shot "a_v01.blend" "shots" (delete_shot "a_v01.blend" "shots" fs0).2).1
    = Raise FileNotFoundError.
Proof. split; vm_compute; reflexivity. Qed.

Example loads_dumps_escapes :
  loads (dumps [("status", "WIP"); ("notes", "a" +:+ String LF (String QUOTE "b"))])
  = Some [("status", "WIP"); ("notes", "a" +:+ String LF (String QUOTE "b"))].
Proof. vm_compute. reflexivity. Qed.

Example dumps_layout :
  dumps [("a", "b")]
  = "{" +:+ String LF ("    " +:+ String QUOTE ("a" +:+ String QUOTE (": " +:+
      String QUOTE ("b" +:+ String QUOTE (String LF "}"))))).
Proof. vm_compute. reflexivity. Qed.

Example loads_malformed : loads "{ not json" = None.
Proof. vm_compute. reflexivity. Qed.

Example splitext_root_cases :
  splitext_root "a_v01.blend" = "a_v01" /\ splitext_root ".blend" = ".blend" /\
  splitext_root "a..b" = "a." /\ splitext_root "..a" = "..a" /\
  splitext_root "abc" = "abc".
Proof. repeat split. Qed.

Example filtered_shots_case :
  filtered_shots "sHoT" ["SHOT_010_v01.blend"; "x.blend"; "my_shot.blend"]
  = ["SHOT_010_v01.blend"; "my_shot.blend"].
Proof. vm_compute. reflexivity. Qed.

Example alphabetical_key_cases :
  SortFiles.alphabetical_key "SHOT_010_v01.blend" = "SHOT_010" /\
  SortFiles.alphabetical_key ("a_v1.blend" +:+ String LF "") = String "a" (String LF "") /\
  SortFiles.alphabetical_key "a_v1.blend_v22.blend" = "a_v1.blend" /\
  SortFiles.alphabetical_key "a_v.blend" = "a_v.blend".
Proof. repeat split. Qed.

Example shot_number_key_cases :
  SortFiles.shot_number_key "cam_SHOT_010_v01.blend" = 10 /\
  SortFiles.shot_number_key "SHOT_7_v123.blend" = 7 /\
  SortFiles.shot_number_key "SHOT_x_v01.blend" = 0 /\
  SortFiles.shot_number_key "a_v01.blend" = 0.
Proof. repeat split. Qed.

Example sort_by_is_stable :
  SortFiles.sort_by N.leb SortFiles.shot_number_key
    ["SHOT_2_v02.blend"; "b_v01.blend"; "SHOT_2_v01.blend"; "SHOT_1_v01.blend"; "a_v01.blend"]
  = ["b_v01.blend"; "a_v01.blend"; "SHOT_1_v01.blend"; "SHOT_2_v02.blend"; "SHOT_2_v01.blend"].
Proof. vm_compute. reflexivity. Qed.

Example strip_cases :
  StrMore.strip "  SHOT 010  " = "SHOT 010" /\
  StrMore.strip ("a" +:+ String LF "") = "a" /\ StrMore.strip "   " = "".
Proof. repeat split. Qed.

Example re_match_name_cases :
  StrMore.re_match_name "SHOT_010" = true /\
  StrMore.re_match_name ("ab" +:+ String LF "") = true /\
  StrMore.re_match_name "SHOT 010" = false /\ StrMore.re_match_name "" = false.
Proof. repeat split. Qed.

Example duplicate_selected_invalid :
  GuiActions.duplicate_selected "shots" (Some "x.blend") fs0
  = (Some (GuiActions.showwarning "Invalid Shot Name"), fs0).
Proof. reflexivity. Qed.

Example main_without_option :
  exit_status (main {| args_create := None; args_list := false;
                       args_duplicate := None; args_delete := None |} fs0) = 0%nat.
Proof. vm_compute. reflexivity. Qed.

End Examples.
